(** * Budget Recommender API: the prediction endpoint of [backend/backend.py]

    A shallow embedding of the bundle loader and of the [/predict] handler.
    The trained estimator and the label encoders come out of a pickle; they
    are opaque collaborators, so they appear here as records of functions.
    Python exceptions are an explicit error value, and every call of the
    estimator's [predict] is recorded in a trace, so that "the model was
    never invoked" is a statement about that trace.  Logging is left out: the
    handler only writes to the logger and never reads it back. *)

From Stdlib Require Import ZArith String List.
From Stdlib Require Import Floats.PrimFloat Floats.FloatOps Floats.SpecFloat.
From stdpp Require Import gmap strings list.

Local Set Warnings "-inexact-float".
Local Open Scope string_scope.
Local Open Scope Z_scope.

(** ** Python values and exceptions *)

(** A cell of the feature table: a Python [float] (binary64) or [int]. *)
Inductive value :=
| VFloat (f : float)
| VInt (z : Z).

(** The exceptions of Python's own operations (subscripting, attribute
    access, [int]) and of the libraries behind the bundle. *)
Inductive pyerr :=
| KeyError (missing : list string)
| ValueError
| TypeError
| AttributeError
| IndexError
| OverflowError.

(** The exceptions that can end a request: FastAPI's own when the body does
    not fit the schema, the [HTTPException] the handler raises itself, or
    one of the above, which the handler never catches. *)
Inductive exn :=
| RequestValidationError
| HTTPException (status_code : Z) (detail : string)
| Uncaught (err : pyerr).

Inductive result (E A : Type) :=
| Ok (a : A)
| Raise (e : E).
Arguments Ok {E A} a.
Arguments Raise {E A} e.

(** FastAPI answers an [HTTPException] with its status code, a returned
    value with 200, a body that fails validation with 422 and any other
    exception with 500. *)
Definition http_status {A} (r : result exn A) : Z :=
  match r with
  | Ok _ => 200
  | Raise RequestValidationError => 422
  | Raise (HTTPException status_code _) => status_code
  | Raise (Uncaught _) => 500
  end.

(** [int(x)]: the identity on an [int]; a finite [float] is truncated
    towards zero, an infinity raises [OverflowError], a NaN [ValueError]. *)
Definition float_trunc (f : float) : result pyerr Z :=
  match Prim2SF f with
  | S754_zero _ => Ok 0
  | S754_infinity _ => Raise OverflowError
  | S754_nan => Raise ValueError
  | S754_finite s m e =>
      let mag := if 0 <=? e then Z.shiftl (Z.pos m) e
                 else Z.shiftr (Z.pos m) (- e) in
      Ok (if s then - mag else mag)
  end.

Definition py_int (v : value) : result pyerr Z :=
  match v with
  | VInt z => Ok z
  | VFloat f => float_trunc f
  end.

(** ** The single-row feature table *)

(** [pd.DataFrame([row])] for one dict [row]: the columns in the dict's
    insertion order, each with its one cell. *)
Abbreviation DataFrame := (list (string * value)).

Definition columns (df : DataFrame) : list string := df.*1.
Definition values (df : DataFrame) : list value := df.*2.

Fixpoint get_loc (c : string) (df : DataFrame) : option value :=
  match df with
  | [] => None
  | (k, v) :: rest => if decide (k = c) then Some v else get_loc c rest
  end.

Fixpoint take_columns (df : DataFrame) (names : list string) : option DataFrame :=
  match names with
  | [] => Some []
  | c :: rest =>
      v ← get_loc c df;
      X ← take_columns df rest;
      Some ((c, v) :: X)
  end.

(** [df[names]] for a list of column names: the named columns in the order
    of [names]; [KeyError] with the names that are not columns of [df]. *)
Definition DataFrame_getitem (df : DataFrame) (names : list string) :
    result pyerr DataFrame :=
  match take_columns df names with
  | Some X => Ok X
  | None => Raise (KeyError (filter (λ c, get_loc c df = None) names))
  end.

(** ** The collaborators stored in the bundle *)

(** An encoder, seen through the one method the handler calls:
    [transform(labels)] returns the array of codes or raises. *)
Record Encoder := { transform : list string → result pyerr (list Z) }.

(** An estimator, seen through [predict(X)]: the array of predictions for
    the rows of [X], or an exception. *)
Record Estimator := { est_predict : DataFrame → result pyerr (list value) }.

(** What the entries of the pickled dict, and hence the three module
    globals, can hold. *)
Inductive pyobj :=
| PyNone
| PyEstimator (m : Estimator)
| PyEncoders (e : gmap string Encoder)
| PyNames (l : list string).

(** sklearn's [LabelEncoder] with the fitted [classes_]: a label is encoded
    as its position in [classes_]; an unseen label raises [ValueError]. *)
Fixpoint class_index (classes : list string) (label : string) : option Z :=
  match classes with
  | [] => None
  | c :: rest => if decide (c = label) then Some 0 else Z.succ <$> class_index rest label
  end.

Definition LabelEncoder (classes_ : list string) : Encoder :=
  {| transform labels :=
       match mapM (class_index classes_) labels with
       | Some codes => Ok codes
       | None => Raise ValueError
       end |}.

(** ** Bundle loader (lines 34-53) *)

Definition DEFAULT_FEATURE_ORDER : list string :=
  [ "income_x"; "income_y"; "expense_amount";
    "category_enc"; "priority_enc"; "cutoff_rate";
    "total_expenses"; "expense_ratio"; "risk_flag" ].

(** The value [joblib.load] returns: a dict, or a bare estimator. *)
Inductive artifact :=
| LoadedDict (d : gmap string pyobj)
| LoadedEstimator (m : Estimator).

(** The module globals [model], [encoders], [feature_order]. *)
Record Bundle := {
  model : pyobj;
  encoders : pyobj;
  feature_order : pyobj
}.

(** [d.get(key, dflt)]; [d.get(key)] is [dict_get d key PyNone]. *)
Definition dict_get (d : gmap string pyobj) (key : string) (dflt : pyobj) : pyobj :=
  default dflt (d !! key).

Definition load_bundle (loaded : artifact) : Bundle :=
  match loaded with
  | LoadedDict d =>
      {| model := dict_get d "model" PyNone;
         encoders := dict_get d "encoders" PyNone;
         feature_order := dict_get d "feature_order" (PyNames DEFAULT_FEATURE_ORDER) |}
  | LoadedEstimator m =>
      {| model := PyEstimator m;
         encoders := PyNone;
         feature_order := PyNames DEFAULT_FEATURE_ORDER |}
  end.

(** ** Request schema (lines 69-83) *)

Record ExpenseInput := {
  income_x : float;
  income_y : float;
  expense_amount : float;
  category : option string;
  priority_flag : option string;
  currency : option string;
  category_enc : option Z;
  priority_enc : option Z;
  cutoff_rate : float;
  total_expenses : float;
  expense_ratio : float;
  risk_flag : Z
}.

Record Response := { recommend_flag : Z }.

(** ** The handler's effects *)

(** The one observable effect besides the answer: a call of the
    estimator's [predict] with the table it was handed. *)
Inductive event :=
| ModelPredict (X : DataFrame).

(** A computation yields the calls made so far and a value or an exception. *)
Definition M (A : Type) : Type := list event * result exn A.

#[global] Instance M_ret : MRet M := λ A a, ([], Ok a).
#[global] Instance M_bind : MBind M := λ A B f m,
  match m with
  | (t, Ok a) => let '(t', r) := f a in ((t ++ t')%list, r)
  | (t, Raise e) => (t, Raise e)
  end.

Definition raise {A} (e : exn) : M A := ([], Raise e).

(** An exception of a library call is not caught: it leaves the handler. *)
Definition uncaught {A} (r : result pyerr A) : result exn A :=
  match r with
  | Ok a => Ok a
  | Raise err => Raise (Uncaught err)
  end.

Definition lift {A} (r : result pyerr A) : M A := ([], uncaught r).
Definition emit (ev : event) : M unit := ([ev], Ok tt).

Definition trace {A} (m : M A) : list event := m.1.
Definition outcome {A} (m : M A) : result exn A := m.2.

(** A computation that never calls the estimator. *)
Definition silent {A} (m : M A) : Prop := trace m = [].

(** ** Python operations on the dynamically typed globals *)

(** [obj[key]] for a string key. *)
Definition py_getitem (obj : pyobj) (key : string) : M Encoder :=
  match obj with
  | PyEncoders d =>
      match d !! key with
      | Some enc => mret enc
      | None => raise (Uncaught (KeyError [key]))
      end
  | _ => raise (Uncaught TypeError)
  end.

(** [arr[0]] *)
Definition first {A} (arr : list A) : M A :=
  match arr with
  | x :: _ => mret x
  | [] => raise (Uncaught IndexError)
  end.

(** [obj.predict(X)]: attribute lookup, then the call, which is recorded. *)
Definition py_predict (obj : pyobj) (X : DataFrame) : M (list value) :=
  match obj with
  | PyEstimator m => emit (ModelPredict X) ≫= λ _, lift (est_predict m X)
  | _ => raise (Uncaught AttributeError)
  end.

(** [pd.DataFrame([row])[obj]] *)
Definition py_select (df : DataFrame) (obj : pyobj) : M DataFrame :=
  match obj with
  | PyNames names => lift (DataFrame_getitem df names)
  | _ => raise (Uncaught (KeyError []))
  end.

(** [obj is not None] *)
Definition is_not_None (obj : pyobj) : bool :=
  match obj with
  | PyNone => false
  | _ => true
  end.

(** ** The handler (lines 95-152) *)

Definition detail_strings : string :=
  "Provide 'category' and 'priority_flag' as strings.".

Definition detail_numbers : string :=
  "Model bundle has no encoders. Provide numeric 'category_enc' and 'priority_enc', "
  +:+ "or re-export a bundle with encoders.".

(** Lines 127-137: the dict [row], in insertion order. *)
Definition assemble_row (expense : ExpenseInput) (codes : Z * Z) : DataFrame :=
  [ ("income_x", VFloat (income_x expense));
    ("income_y", VFloat (income_y expense));
    ("expense_amount", VFloat (expense_amount expense));
    ("category_enc", VInt codes.1);
    ("priority_enc", VInt codes.2);
    ("cutoff_rate", VFloat (cutoff_rate expense));
    ("total_expenses", VFloat (total_expenses expense));
    ("expense_ratio", VFloat (expense_ratio expense));
    ("risk_flag", VInt (risk_flag expense)) ].

Section Handler.

(** The module globals the handler reads; they are set once, at load. *)
Context (b : Bundle).

(** Lines 104-125: the pair [(category_enc, priority_enc)]. *)
Definition resolve_encodings (expense : ExpenseInput) : M (Z * Z) :=
  if is_not_None (encoders b) then
    match category expense, priority_flag expense with
    | Some c, Some p =>
        enc_c ← py_getitem (encoders b) "category";
        codes_c ← lift (transform enc_c [c]);
        code_c ← first codes_c;
        enc_p ← py_getitem (encoders b) "priority_flag";
        codes_p ← lift (transform enc_p [p]);
        code_p ← first codes_p;
        mret (code_c, code_p)
    | _, _ => raise (HTTPException 400 detail_strings)
    end
  else
    match category_enc expense, priority_enc expense with
    | Some c, Some p => mret (c, p)
    | _, _ => raise (HTTPException 400 detail_numbers)
    end.

(** Lines 141-152: select the columns, ask the model, answer. *)
Definition infer (row : DataFrame) : M Response :=
  X ← py_select row (feature_order b);
  preds ← py_predict (model b) X;
  pred0 ← first preds;
  pred ← lift (py_int pred0);
  mret {| recommend_flag := pred |}.

Definition predict (expense : ExpenseInput) : M Response :=
  codes ← resolve_encodings expense;
  infer (assemble_row expense codes).

End Handler.

(** ** The request body in front of the handler *)

(** The JSON values a member of the body can have (scalars only: every
    field of the schema is one). *)
Inductive json :=
| JNull
| JBool (b : bool)
| JInt (z : Z)
| JFloat (f : float)
| JString (s : string).

(** [json.loads] on the body: the members of the object, listed in the
    order of the text, become a dict; of two members with the same key the
    later one stays. *)
Definition json_loads (members : list (string * json)) : gmap string json :=
  list_to_map (reverse members).

(** What pydantic accepts for a [float], an [int] and a [str] field, and
    as which value.  The rules differ between pydantic versions, so they
    are an interface (the schema below does not depend on them). *)
Class Validators := {
  float_validator : json → option float;
  int_validator : json → option Z;
  str_validator : json → option string
}.

(** The usual core of those rules: numbers for the numeric fields, with an
    integer literal read as the nearest float, and strings for the string
    fields. *)
Definition float_of_Z (z : Z) : float :=
  SF2Prim (binary_normalize prec emax z 0 false).

Definition plain_validators : Validators :=
  {| float_validator j :=
       match j with
       | JFloat f => Some f
       | JInt z => Some (float_of_Z z)
       | _ => None
       end;
     int_validator j := match j with JInt z => Some z | _ => None end;
     str_validator j := match j with JString s => Some s | _ => None end |}.

(** A field without a default: the key must be there and validate. *)
Definition required {A} (validator : json → option A)
    (d : gmap string json) (name : string) : result exn A :=
  match d !! name with
  | Some j =>
      match validator j with
      | Some a => Ok a
      | None => Raise RequestValidationError
      end
  | None => Raise RequestValidationError
  end.

(** A field declared [Optional[T] = None]: a missing key or a [null] gives
    [None]; anything else must validate. *)
Definition optional {A} (validator : json → option A)
    (d : gmap string json) (name : string) : result exn (option A) :=
  match d !! name with
  | None | Some JNull => Ok None
  | Some j =>
      match validator j with
      | Some a => Ok (Some a)
      | None => Raise RequestValidationError
      end
  end.

Definition and_then {E A B} (r : result E A) (k : A → result E B) : result E B :=
  match r with
  | Ok a => k a
  | Raise e => Raise e
  end.

(** The schema of lines 69-83, field by field. *)
Definition ExpenseInput_validate {V : Validators} (d : gmap string json) :
    result exn ExpenseInput :=
  and_then (required float_validator d "income_x") (λ v_income_x,
  and_then (required float_validator d "income_y") (λ v_income_y,
  and_then (required float_validator d "expense_amount") (λ v_expense_amount,
  and_then (optional str_validator d "category") (λ v_category,
  and_then (optional str_validator d "priority_flag") (λ v_priority_flag,
  and_then (optional str_validator d "currency") (λ v_currency,
  and_then (optional int_validator d "category_enc") (λ v_category_enc,
  and_then (optional int_validator d "priority_enc") (λ v_priority_enc,
  and_then (required float_validator d "cutoff_rate") (λ v_cutoff_rate,
  and_then (required float_validator d "total_expenses") (λ v_total_expenses,
  and_then (required float_validator d "expense_ratio") (λ v_expense_ratio,
  and_then (required int_validator d "risk_flag") (λ v_risk_flag,
  Ok {| income_x := v_income_x; income_y := v_income_y;
        expense_amount := v_expense_amount;
        category := v_category; priority_flag := v_priority_flag;
        currency := v_currency;
        category_enc := v_category_enc; priority_enc := v_priority_enc;
        cutoff_rate := v_cutoff_rate; total_expenses := v_total_expenses;
        expense_ratio := v_expense_ratio; risk_flag := v_risk_flag |})))))))))))).

(** [POST /predict]: the body is parsed and validated, then handed to the
    handler; a body that does not validate never reaches it. *)
Definition post_predict {V : Validators} (b : Bundle)
    (members : list (string * json)) : M Response :=
  match ExpenseInput_validate (json_loads members) with
  | Ok expense => predict b expense
  | Raise e => raise e
  end.

(** ** Locating the bundle at import, and the root endpoint
       (lines 13-34 and 86-92) *)

Definition candidate_names : list string :=
  [ "recommender_bundle.pkl"; "recommendation_bundle.pkl" ].

(** The part of [pathlib] and [joblib] the module uses at import:
    [dir / name], [p.exists()], [str(p)], and [joblib.load], which returns
    the unpickled value or raises. *)
Class Disk := {
  Path : Type;
  joinpath : Path → string → Path;
  path_exists : Path → bool;
  path_str : Path → string;
  joblib_load : string → option artifact
}.

(** What can stop the import. *)
Inductive import_error :=
| FileNotFoundError (message : string)
| LoadFailed.

(** What the import leaves behind for the endpoints. *)
Record Service {D : Disk} := {
  bundle_path : Path;
  service_bundle : Bundle
}.

Section Startup.

Context {D : Disk} (backend_dir : Path).

(** Lines 21-26: the loop over the candidates stops at the first that
    exists. *)
Fixpoint first_existing (names : list string) : option Path :=
  match names with
  | [] => None
  | name :: rest =>
      let p := joinpath backend_dir name in
      if path_exists p then Some p else first_existing rest
  end.

(** Line 29 *)
Definition tried : string :=
  String.concat ", " (map (λ n, path_str (joinpath backend_dir n)) candidate_names).

(** Lines 30-33 *)
Definition not_found_message : string :=
  "Model bundle not found. Tried: " +:+ tried +:+ ". "
  +:+ "Place the bundle with one of these names or update the code.".

(** Lines 21-53, up to the globals. *)
Definition startup : result import_error Service :=
  match first_existing candidate_names with
  | None => Raise (FileNotFoundError not_found_message)
  | Some p =>
      match joblib_load (path_str p) with
      | Some loaded => Ok {| bundle_path := p; service_bundle := load_bundle loaded |}
      | None => Raise LoadFailed
      end
  end.

End Startup.

(** Lines 86-92: the dict [root()] returns. *)
Definition root {D : Disk} (s : Service) : list (string * string) :=
  [ ("status", "ok");
    ("message", "Budget Recommender API");
    ("bundle_path", path_str (bundle_path s)) ].

(** [d[key]] on the dict of an answer. *)
Fixpoint entry (key : string) (d : list (string * string)) : option string :=
  match d with
  | [] => None
  | (k, v) :: rest => if decide (k = key) then Some v else entry key rest
  end.

(** ** Vocabulary of the statements *)

(** The columns of the assembled row, whatever the request. *)
Definition ROW_COLUMNS : list string :=
  [ "income_x"; "income_y"; "expense_amount";
    "category_enc"; "priority_enc"; "cutoff_rate";
    "total_expenses"; "expense_ratio"; "risk_flag" ].

(** The names of [names] and the columns of the row are the same names,
    in whatever order and however often. *)
Definition same_columns (names : list string) : Prop :=
  ∀ c, c ∈ names ↔ c ∈ ROW_COLUMNS.

(** [int(preds[0])] on what the estimator returned. *)
Definition first_as_int (preds : result pyerr (list value)) : result pyerr Z :=
  match preds with
  | Ok (v :: _) => py_int v
  | Ok [] => Raise IndexError
  | Raise e => Raise e
  end.

Definition respond (pred : result pyerr Z) : result exn Response :=
  match pred with
  | Ok z => Ok {| recommend_flag := z |}
  | Raise err => Raise (Uncaught err)
  end.

(** [int(enc.transform([label])[0])]: the code the encoder assigns. *)
Definition code_for (enc : Encoder) (label : string) : result pyerr Z :=
  match transform enc [label] with
  | Ok (z :: _) => Ok z
  | Ok [] => Raise IndexError
  | Raise e => Raise e
  end.

(** The same model and feature order, with [encoders = None]. *)
Definition without_encoders (b : Bundle) : Bundle :=
  {| model := model b; encoders := PyNone; feature_order := feature_order b |}.

(** The bundle carries encoders: the test of line 104. *)
Definition has_encoders (b : Bundle) : bool := is_not_None (encoders b).

(** The categorical fields the active mode requires and the request lacks. *)
Definition absent {A} (name : string) (field : option A) : list string :=
  match field with
  | None => [name]
  | Some _ => []
  end.

Definition missing_fields (b : Bundle) (expense : ExpenseInput) : list string :=
  if has_encoders b
  then (absent "category" (category expense)
        ++ absent "priority_flag" (priority_flag expense))%list
  else (absent "category_enc" (category_enc expense)
        ++ absent "priority_enc" (priority_enc expense))%list.

(** The text of the 400 answer in the active mode. *)
Definition missing_detail (b : Bundle) : string :=
  if has_encoders b then detail_strings else detail_numbers.

(** The message names the field, in quotes. *)
Definition mentions (detail field : string) : bool :=
  bool_decide (is_Some (String.index 0 ("'" +:+ field +:+ "'") detail)).

(** ** Relations between requests *)

(** The two requests agree on every field the row is built from. *)
Definition same_numeric_fields (e1 e2 : ExpenseInput) : Prop :=
  income_x e1 = income_x e2 ∧ income_y e1 = income_y e2 ∧
  expense_amount e1 = expense_amount e2 ∧ cutoff_rate e1 = cutoff_rate e2 ∧
  total_expenses e1 = total_expenses e2 ∧ expense_ratio e1 = expense_ratio e2 ∧
  risk_flag e1 = risk_flag e2.

(** The two requests agree on every field but [currency]. *)
Definition same_except_currency (e1 e2 : ExpenseInput) : Prop :=
  same_numeric_fields e1 e2 ∧
  category e1 = category e2 ∧ priority_flag e1 = priority_flag e2 ∧
  category_enc e1 = category_enc e2 ∧ priority_enc e1 = priority_enc e2.

(** The two requests agree on every field but [category_enc] and
    [priority_enc]. *)
Definition same_except_codes (e1 e2 : ExpenseInput) : Prop :=
  same_numeric_fields e1 e2 ∧
  category e1 = category e2 ∧ priority_flag e1 = priority_flag e2 ∧
  currency e1 = currency e2.

(** The two requests agree on every field but the strings [category],
    [priority_flag] and [currency]. *)
Definition same_except_strings (e1 e2 : ExpenseInput) : Prop :=
  same_numeric_fields e1 e2 ∧
  category_enc e1 = category_enc e2 ∧ priority_enc e1 = priority_enc e2.

(** The fields of the schema that have no default. *)
Definition required_fields : list string :=
  [ "income_x"; "income_y"; "expense_amount"; "cutoff_rate";
    "total_expenses"; "expense_ratio"; "risk_flag" ].

(** The text [s] occurs in [msg]. *)
Definition occurs_in (s msg : string) : Prop :=
  ∃ before after, msg = before +:+ s +:+ after.

(** ** Sample data *)

Module Sample.

(** An estimator that answers [1] when the cell under [risk_flag] is the
    integer 0, and [0] otherwise. *)
Definition cautious : Estimator :=
  {| est_predict X :=
       match get_loc "risk_flag" X with
       | Some (VInt 0) => Ok [VInt 1]
       | _ => Ok [VInt 0]
       end |}.

Definition category_encoder : Encoder :=
  LabelEncoder ["Bills"; "Entertainment"; "Food"; "Transport"].

Definition priority_encoder : Encoder :=
  LabelEncoder ["Critical"; "High"; "Low"].

Definition label_encoders : gmap string Encoder :=
  {[ "category" := category_encoder; "priority_flag" := priority_encoder ]}.

Definition with_encoders : Bundle :=
  load_bundle (LoadedDict {[ "model" := PyEstimator cautious;
                             "encoders" := PyEncoders label_encoders;
                             "feature_order" := PyNames DEFAULT_FEATURE_ORDER ]}).

Definition bare : Bundle := load_bundle (LoadedEstimator cautious).

(** A three-class estimator stuck on its last class. *)
Definition three_way : Estimator := {| est_predict _ := Ok [VInt 2] |}.

Definition with_three_way : Bundle :=
  load_bundle (LoadedDict {[ "model" := PyEstimator three_way;
                             "encoders" := PyEncoders label_encoders ]}).

(** A bundle whose model was trained on the two incomes only. *)
Definition incomes_only : Bundle :=
  load_bundle (LoadedDict {[ "model" := PyEstimator cautious;
                             "encoders" := PyEncoders label_encoders;
                             "feature_order" := PyNames ["income_x"; "income_y"] ]}).

(** A bundle whose feature order names a column the handler never builds. *)
Definition with_currency_column : Bundle :=
  load_bundle (LoadedDict {[ "model" := PyEstimator cautious;
                             "encoders" := PyEncoders label_encoders;
                             "feature_order" := PyNames ["income_x"; "currency_enc"] ]}).

(** A bundle whose feature order reorders and repeats assembled columns. *)
Definition risk_then_income : Bundle :=
  load_bundle (LoadedDict {[ "model" := PyEstimator cautious;
                             "encoders" := PyEncoders label_encoders;
                             "feature_order" :=
                               PyNames ["risk_flag"; "income_x"; "income_x"] ]}).

(** A bundle exported with the category encoder only. *)
Definition label_only : gmap string Encoder :=
  {[ "category" := category_encoder ]}.

Definition category_only : Bundle :=
  load_bundle (LoadedDict {[ "model" := PyEstimator cautious;
                             "encoders" := PyEncoders label_only ]}).

(** The request of the spec's concrete scenario. *)
Definition food_high : ExpenseInput :=
  {| income_x := 5000; income_y := 2000; expense_amount := 300;
     category := Some "Food"; priority_flag := Some "High"; currency := None;
     category_enc := None; priority_enc := None;
     cutoff_rate := 0.3; total_expenses := 1200; expense_ratio := 0.24;
     risk_flag := 0 |}.

(** Its body, and the same body with the keys in the opposite order. *)
Definition food_high_body : list (string * json) :=
  [ ("income_x", JInt 5000); ("income_y", JInt 2000);
    ("expense_amount", JInt 300); ("category", JString "Food");
    ("priority_flag", JString "High"); ("cutoff_rate", JFloat 0.3);
    ("total_expenses", JInt 1200); ("expense_ratio", JFloat 0.24);
    ("risk_flag", JInt 0) ].


(** The same request with a currency label. *)
Definition food_high_rwf : ExpenseInput :=
  {| income_x := 5000; income_y := 2000; expense_amount := 300;
     category := Some "Food"; priority_flag := Some "High";
     currency := Some "RWF";
     category_enc := None; priority_enc := None;
     cutoff_rate := 0.3; total_expenses := 1200; expense_ratio := 0.24;
     risk_flag := 0 |}.

(** The same request with a category the encoder was not fitted on. *)
Definition food_high_rent : ExpenseInput :=
  {| income_x := 5000; income_y := 2000; expense_amount := 300;
     category := Some "Rent"; priority_flag := Some "High"; currency := None;
     category_enc := None; priority_enc := None;
     cutoff_rate := 0.3; total_expenses := 1200; expense_ratio := 0.24;
     risk_flag := 0 |}.

(** The same request carrying codes that contradict its labels. *)
Definition food_high_stale_codes : ExpenseInput :=
  {| income_x := 5000; income_y := 2000; expense_amount := 300;
     category := Some "Food"; priority_flag := Some "High"; currency := None;
     category_enc := Some 0; priority_enc := Some 7;
     cutoff_rate := 0.3; total_expenses := 1200; expense_ratio := 0.24;
     risk_flag := 0 |}.

(** The same record with the codes in place of the labels. *)
Definition food_high_codes : ExpenseInput :=
  {| income_x := 5000; income_y := 2000; expense_amount := 300;
     category := None; priority_flag := None; currency := None;
     category_enc := Some 2; priority_enc := Some 1;
     cutoff_rate := 0.3; total_expenses := 1200; expense_ratio := 0.24;
     risk_flag := 0 |}.

Definition food_high_row : DataFrame :=
  [ ("income_x", VFloat 5000); ("income_y", VFloat 2000);
    ("expense_amount", VFloat 300); ("category_enc", VInt 2);
    ("priority_enc", VInt 1); ("cutoff_rate", VFloat 0.3);
    ("total_expenses", VFloat 1200); ("expense_ratio", VFloat 0.24);
    ("risk_flag", VInt 0) ].

(** The coded request carrying labels that contradict its codes. *)
Definition food_high_stale_labels : ExpenseInput :=
  {| income_x := 5000; income_y := 2000; expense_amount := 300;
     category := Some "Rent"; priority_flag := None; currency := Some "RWF";
     category_enc := Some 2; priority_enc := Some 1;
     cutoff_rate := 0.3; total_expenses := 1200; expense_ratio := 0.24;
     risk_flag := 0 |}.

(** A directory that holds only the bundle under its second name. *)
Definition variant_only : Disk :=
  {| Path := string;
     joinpath dir name := dir +:+ "/" +:+ name;
     path_exists p := bool_decide (p = "/srv/backend/recommendation_bundle.pkl");
     path_str p := p;
     joblib_load p :=
       if decide (p = "/srv/backend/recommendation_bundle.pkl")
       then Some (LoadedEstimator cautious) else None |}.

(** An empty directory. *)
Definition empty_dir : Disk :=
  {| Path := string;
     joinpath dir name := dir +:+ "/" +:+ name;
     path_exists p := false;
     path_str p := p;
     joblib_load p := None |}.

(** A dict bundle exported without its model. *)
Definition without_model : gmap string pyobj :=
  {[ "encoders" := PyEncoders label_encoders ]}.

(** A body without the required [income_x]. *)
Definition body_without_income : list (string * json) :=
  [ ("income_y", JInt 2000); ("expense_amount", JInt 300);
    ("category", JString "Food"); ("priority_flag", JString "High");
    ("cutoff_rate", JFloat 0.3); ("total_expenses", JInt 1200);
    ("expense_ratio", JFloat 0.24); ("risk_flag", JInt 0) ].

(** A body with every required field and no [category]. *)
Definition body_without_category : list (string * json) :=
  [ ("income_x", JInt 5000); ("income_y", JInt 2000);
    ("expense_amount", JInt 300); ("priority_flag", JString "High");
    ("cutoff_rate", JFloat 0.3); ("total_expenses", JInt 1200);
    ("expense_ratio", JFloat 0.24); ("risk_flag", JInt 0) ].

(** A dict bundle whose "feature_order" entry is [None]. *)
Definition with_none_order : gmap string pyobj :=
  {[ "model" := PyEstimator cautious;
     "encoders" := PyEncoders label_encoders;
     "feature_order" := PyNone ]}.

(** A dict bundle with model and encoders and no "feature_order". *)
Definition without_order : gmap string pyobj :=
  {[ "model" := PyEstimator cautious;
     "encoders" := PyEncoders label_encoders ]}.

(** An estimator that always fails. *)
Definition broken : Estimator := {| est_predict _ := Raise ValueError |}.

Example startup_variant_only :
  root <$> (match startup (D := variant_only) "/srv/backend" with
            | Ok s => Some s
            | Raise _ => None
            end)
  = Some [ ("status", "ok"); ("message", "Budget Recommender API");
           ("bundle_path", "/srv/backend/recommendation_bundle.pkl") ].
Proof. vm_compute. reflexivity. Qed.

Example startup_empty_dir :
  startup (D := empty_dir) "/srv/backend"
  = Raise (FileNotFoundError
      ("Model bundle not found. Tried: /srv/backend/recommender_bundle.pkl, "
       +:+ "/srv/backend/recommendation_bundle.pkl. "
       +:+ "Place the bundle with one of these names or update the code.")).
Proof. vm_compute. reflexivity. Qed.

Example transform_known :
  transform category_encoder ["Food"; "Bills"] = Ok [2; 0].
Proof. reflexivity. Qed.

Example transform_unseen :
  transform category_encoder ["Rent"] = Raise ValueError.
Proof. reflexivity. Qed.

Example int_of_float :
  py_int (VFloat 2.9) = Ok 2 ∧ py_int (VFloat (-2.9)) = Ok (-2) ∧
  py_int (VFloat infinity) = Raise OverflowError ∧
  py_int (VFloat nan) = Raise ValueError.
Proof. repeat split; reflexivity. Qed.

Example detail_strings_mentions :
  mentions detail_strings "category" = true ∧
  mentions detail_strings "priority_flag" = true ∧
  mentions detail_strings "category_enc" = false.
Proof. repeat split; reflexivity. Qed.

Example unseen_label_is_uncaught :
  predict with_encoders food_high_rent = raise (Uncaught ValueError).
Proof. vm_compute. reflexivity. Qed.

Example predict_food_high :
  predict with_encoders food_high
  = ([ModelPredict food_high_row], Ok {| recommend_flag := 1 |}).
Proof. vm_compute. reflexivity. Qed.

Example validate_food_high_body :
  ExpenseInput_validate (V := plain_validators) (json_loads food_high_body)
  = Ok food_high.
Proof. vm_compute. reflexivity. Qed.

Example predict_food_high_codes :
  predict bare food_high_codes
  = ([ModelPredict food_high_row], Ok {| recommend_flag := 1 |}).
Proof. vm_compute. reflexivity. Qed.

End Sample.

(** ** Theorems *)

(** *** Laws of the handler's monad *)

Lemma bind_ret {A B} (a : A) (f : A → M B) : mret a ≫= f = f a.
Proof. unfold mret, mbind, M_ret, M_bind. destruct (f a); reflexivity. Qed.

Lemma bind_raise {A B} (e : exn) (f : A → M B) : raise e ≫= f = raise e.
Proof. reflexivity. Qed.

Lemma bind_lift {A B} (r : result pyerr A) (f : A → M B) :
  lift r ≫= f = match r with Ok a => f a | Raise e => raise (Uncaught e) end.
Proof. destruct r as [a | e]; [apply (bind_ret a f) | reflexivity]. Qed.

Lemma trace_bind {A B} (m : M A) (f : A → M B) :
  trace (m ≫= f)
  = (trace m ++ match outcome m with Ok a => trace (f a) | Raise _ => [] end)%list.
Proof.
  destruct m as [t [a | e]]; unfold mbind, M_bind, trace, outcome; simpl.
  - destruct (f a); reflexivity.
  - symmetry; apply app_nil_r.
Qed.

Lemma silent_bind {A B} (m : M A) (f : A → M B) :
  silent m → (∀ a, silent (f a)) → silent (m ≫= f).
Proof.
  unfold silent. intros Hm Hf. rewrite trace_bind, Hm.
  destruct (outcome m); [apply Hf | reflexivity].
Qed.

Lemma silent_eq {A} (m : M A) : silent m → m = ([], outcome m).
Proof.
  destruct m as [t r]. unfold silent, trace, outcome. simpl.
  intros ->. reflexivity.
Qed.

Lemma silent_ret {A} (a : A) : silent (mret a : M A).
Proof. reflexivity. Qed.

Lemma silent_raise {A} (e : exn) : silent (raise e : M A).
Proof. reflexivity. Qed.

Lemma silent_lift {A} (r : result pyerr A) : silent (lift r).
Proof. reflexivity. Qed.

Lemma silent_first {A} (arr : list A) : silent (first arr).
Proof. destruct arr; reflexivity. Qed.

Lemma silent_getitem (obj : pyobj) (key : string) : silent (py_getitem obj key).
Proof. unfold py_getitem. repeat case_match; reflexivity. Qed.

Lemma silent_select (df : DataFrame) (obj : pyobj) : silent (py_select df obj).
Proof. destruct obj; reflexivity. Qed.

Create HintDb silent.
#[local] Hint Resolve silent_ret silent_raise silent_lift silent_first
  silent_getitem silent_select : silent.

Ltac silent_steps :=
  repeat first [ apply silent_bind; [| intros ?] | solve [auto with silent] ].

(** *** The encoding step (lines 104-125) *)

Lemma resolve_encodings_silent (b : Bundle) (expense : ExpenseInput) :
  silent (resolve_encodings b expense).
Proof.
  unfold resolve_encodings.
  repeat case_match; silent_steps.
Qed.

(** In the string mode a missing label is answered before anything else is
    looked at; in the code mode a missing code is. *)
Lemma resolve_encodings_missing (b : Bundle) (expense : ExpenseInput) :
  missing_fields b expense ≠ [] →
  resolve_encodings b expense = raise (HTTPException 400 (missing_detail b)).
Proof.
  unfold missing_fields, missing_detail, has_encoders, resolve_encodings, absent.
  destruct (is_not_None (encoders b));
    destruct (category expense), (priority_flag expense),
             (category_enc expense), (priority_enc expense);
    simpl; intros H; try reflexivity; contradiction.
Qed.

Lemma resolve_encodings_strings (b : Bundle) (expense : ExpenseInput)
    (es : gmap string Encoder) (c p : string) :
  encoders b = PyEncoders es →
  category expense = Some c → priority_flag expense = Some p →
  resolve_encodings b expense
  = match es !! "category" with
    | None => raise (Uncaught (KeyError ["category"]))
    | Some enc_c =>
        match code_for enc_c c with
        | Raise e => raise (Uncaught e)
        | Ok code_c =>
            match es !! "priority_flag" with
            | None => raise (Uncaught (KeyError ["priority_flag"]))
            | Some enc_p =>
                match code_for enc_p p with
                | Raise e => raise (Uncaught e)
                | Ok code_p => mret (code_c, code_p)
                end
            end
        end
    end.
Proof.
  intros Hes Hc Hp. unfold resolve_encodings, py_getitem, code_for.
  rewrite Hes, Hc, Hp. cbv beta iota delta [is_not_None].
  destruct (es !! "category") as [enc_c |]; [| reflexivity].
  rewrite bind_ret, bind_lift.
  destruct (transform enc_c [c]) as [[| code_c rest_c] | e]; try reflexivity.
  cbv beta iota delta [first]. rewrite bind_ret.
  destruct (es !! "priority_flag") as [enc_p |]; [| reflexivity].
  rewrite bind_ret, bind_lift.
  destruct (transform enc_p [p]) as [[| code_p rest_p] | e]; reflexivity.
Qed.

Lemma resolve_encodings_codes (b : Bundle) (expense : ExpenseInput) (c p : Z) :
  encoders b = PyNone →
  category_enc expense = Some c → priority_enc expense = Some p →
  resolve_encodings b expense = mret (c, p).
Proof.
  intros Hes Hc Hp. unfold resolve_encodings. rewrite Hes, Hc, Hp. reflexivity.
Qed.

(** *** The handler, step by step *)

Lemma predict_unfold (b : Bundle) (expense : ExpenseInput) :
  predict b expense
  = match outcome (resolve_encodings b expense) with
    | Ok codes => infer b (assemble_row expense codes)
    | Raise e => raise e
    end.
Proof.
  unfold predict.
  rewrite (silent_eq _ (resolve_encodings_silent b expense)).
  unfold outcome at 2; simpl snd.
  destruct (outcome (resolve_encodings b expense)) as [codes | e];
    [apply (bind_ret codes) | reflexivity].
Qed.

Lemma infer_unfold (b : Bundle) (row : DataFrame) :
  infer b row
  = match feature_order b with
    | PyNames names =>
        match DataFrame_getitem row names with
        | Ok X =>
            match model b with
            | PyEstimator m =>
                ([ModelPredict X], respond (first_as_int (est_predict m X)))
            | _ => raise (Uncaught AttributeError)
            end
        | Raise e => raise (Uncaught e)
        end
    | _ => raise (Uncaught (KeyError []))
    end.
Proof.
  unfold infer, py_select, py_predict.
  destruct (feature_order b) as [| | | names]; try reflexivity.
  rewrite bind_lift.
  destruct (DataFrame_getitem row names) as [X | e]; [| reflexivity].
  destruct (model b) as [| m | |]; try reflexivity.
  unfold emit, lift, uncaught, first, mbind, M_bind, mret, M_ret, raise,
    respond, first_as_int.
  destruct (est_predict m X) as [[| v rest] | e]; try reflexivity.
  destruct (py_int v); reflexivity.
Qed.

Lemma predict_stops_at_encoding (b : Bundle) (expense : ExpenseInput) (e : exn) :
  resolve_encodings b expense = raise e → predict b expense = raise e.
Proof. unfold predict. intros ->. reflexivity. Qed.

(** Two requests with the same codes and the same numeric fields are served
    alike. *)
Lemma predict_ext (b : Bundle) (e1 e2 : ExpenseInput) :
  resolve_encodings b e1 = resolve_encodings b e2 →
  same_numeric_fields e1 e2 →
  predict b e1 = predict b e2.
Proof.
  intros Hres (Hx & Hy & Ha & Hc & Ht & Hr & Hf).
  unfold predict, assemble_row.
  rewrite Hres, Hx, Hy, Ha, Hc, Ht, Hr, Hf. reflexivity.
Qed.

(** With everything in place, the handler calls the estimator once, on the
    selected table, and answers with its first prediction read as an int. *)
Lemma predict_with_labels (b : Bundle) (m : Estimator)
    (es : gmap string Encoder) (enc_c enc_p : Encoder) (names : list string)
    (expense : ExpenseInput) (c p : string) (code_c code_p : Z) (X : DataFrame) :
  model b = PyEstimator m → encoders b = PyEncoders es →
  feature_order b = PyNames names →
  es !! "category" = Some enc_c → es !! "priority_flag" = Some enc_p →
  category expense = Some c → priority_flag expense = Some p →
  code_for enc_c c = Ok code_c → code_for enc_p p = Ok code_p →
  DataFrame_getitem (assemble_row expense (code_c, code_p)) names = Ok X →
  predict b expense
  = ([ModelPredict X], respond (first_as_int (est_predict m X))).
Proof.
  intros Hm Hes Hfo Hec Hep Hc Hp Hcc Hcp HX.
  rewrite predict_unfold, (resolve_encodings_strings b expense es c p Hes Hc Hp).
  rewrite Hec, Hcc, Hep, Hcp. unfold outcome, mret, M_ret; simpl snd.
  cbv beta iota. rewrite infer_unfold, Hfo, HX, Hm. reflexivity.
Qed.

(** *** Column selection (line 141) *)

Lemma take_columns_columns (df : DataFrame) (names : list string) (X : DataFrame) :
  take_columns df names = Some X → columns X = names.
Proof.
  revert X. induction names as [| c rest IH]; intros X; simpl.
  - intros [= <-]. reflexivity.
  - destruct (get_loc c df) as [v |]; [| discriminate]. simpl.
    destruct (take_columns df rest) as [X' |]; [| discriminate]. simpl.
    intros [= <-]. unfold columns in *. simpl. f_equal. apply IH. reflexivity.
Qed.

Lemma get_loc_None (c : string) (df : DataFrame) :
  get_loc c df = None ↔ c ∉ columns df.
Proof.
  unfold columns. induction df as [| [k v] rest IH]; simpl.
  - split; [intros _; apply not_elem_of_nil | reflexivity].
  - destruct (decide (k = c)) as [-> | Hne].
    + split; [discriminate | intros H; destruct H; left].
    + rewrite IH, not_elem_of_cons.
      split; [intros H; split; [congruence | exact H] | intros [_ H]; exact H].
Qed.

Lemma take_columns_None (df : DataFrame) (names : list string) :
  take_columns df names = None ↔ ∃ c, c ∈ names ∧ c ∉ columns df.
Proof.
  induction names as [| c rest IH]; simpl.
  - split; [discriminate | intros (c & Hc & _); inversion Hc].
  - destruct (get_loc c df) as [v |] eqn:Hv; simpl.
    + assert (Hin : ¬ (c ∉ columns df)).
      { rewrite <- get_loc_None, Hv. discriminate. }
      destruct (take_columns df rest) as [X |]; simpl.
      * split; [discriminate |].
        intros (c' & Hc' & Hnot). apply elem_of_cons in Hc' as [-> | Hc'].
        -- contradiction.
        -- destruct IH as [_ IH]. discriminate IH. eauto.
      * split; [| reflexivity]. intros _.
        destruct IH as [IH _]. destruct (IH eq_refl) as (c' & Hc' & Hnot).
        exists c'. split; [right; exact Hc' | exact Hnot].
    + split; [| reflexivity]. intros _. exists c.
      split; [left | apply get_loc_None; exact Hv].
Qed.

Lemma columns_assemble_row (expense : ExpenseInput) (codes : Z * Z) :
  columns (assemble_row expense codes) = ROW_COLUMNS.
Proof. reflexivity. Qed.

(** Names that are all among the row's columns select a table. *)
Lemma getitem_known_names (expense : ExpenseInput) (codes : Z * Z) (names : list string) :
  names ⊆ ROW_COLUMNS →
  ∃ X, DataFrame_getitem (assemble_row expense codes) names = Ok X
       ∧ columns X = names.
Proof.
  intros Hsub. unfold DataFrame_getitem.
  destruct (take_columns (assemble_row expense codes) names) as [X |] eqn:HX.
  - exists X. split; [reflexivity | eapply take_columns_columns; exact HX].
  - apply take_columns_None in HX as (c & Hc & Hnot).
    rewrite columns_assemble_row in Hnot. destruct Hnot. apply Hsub, Hc.
Qed.

(** A name outside the row's columns makes the selection raise. *)
Lemma getitem_unknown_name (expense : ExpenseInput) (codes : Z * Z)
    (names : list string) (c : string) :
  c ∈ names → c ∉ ROW_COLUMNS →
  ∃ missing, c ∈ missing
    ∧ DataFrame_getitem (assemble_row expense codes) names = Raise (KeyError missing).
Proof.
  intros Hc Hnot. unfold DataFrame_getitem.
  destruct (take_columns (assemble_row expense codes) names) as [X |] eqn:HX.
  - assert (HN : take_columns (assemble_row expense codes) names = None).
    { apply take_columns_None. exists c. rewrite columns_assemble_row. auto. }
    congruence.
  - eexists. split; [| reflexivity].
    apply list_elem_of_filter. split; [| exact Hc].
    apply get_loc_None. rewrite columns_assemble_row. exact Hnot.
Qed.


(** *** The request body *)


Lemma missing_fields_mentioned (b : Bundle) (expense : ExpenseInput) :
  Forall (λ field, mentions (missing_detail b) field = true)
         (missing_fields b expense).
Proof.
  unfold missing_fields, missing_detail, absent.
  destruct (has_encoders b);
    [ destruct (category expense), (priority_flag expense)
    | destruct (category_enc expense), (priority_enc expense) ];
    repeat constructor.
Qed.

(** ** The claims *)

(** C1: a request that lacks a categorical input the active mode requires
    is answered with HTTP 400 and the estimator is never called.  With
    encoders in the bundle the required inputs are the strings [category]
    and [priority_flag]; without encoders they are the integers
    [category_enc] and [priority_enc].  The detail text of the answer names,
    in quotes, every field that is missing. *)
Theorem missing_categorical_input_rejected (b : Bundle) (expense : ExpenseInput) :
  (encoders b ≠ PyNone ∧
     (category expense = None ∨ priority_flag expense = None)) ∨
  (encoders b = PyNone ∧
     (category_enc expense = None ∨ priority_enc expense = None)) →
  outcome (predict b expense) = Raise (HTTPException 400 (missing_detail b)) ∧
  http_status (outcome (predict b expense)) = 400 ∧
  trace (predict b expense) = [] ∧
  missing_fields b expense ≠ [] ∧
  Forall (λ field, mentions (missing_detail b) field = true)
         (missing_fields b expense).
Proof.
  intros H.
  assert (Hmiss : missing_fields b expense ≠ []).
  { unfold missing_fields, has_encoders, absent.
    destruct H as [[Henc [Hc | Hp]] | [Henc [Hc | Hp]]];
      destruct (encoders b); try contradiction; try discriminate;
      rewrite ?Hc, ?Hp; simpl; try discriminate;
      repeat case_match; discriminate. }
  rewrite (predict_stops_at_encoding _ _ _ (resolve_encodings_missing _ _ Hmiss)).
  repeat split; [exact Hmiss | apply missing_fields_mentioned].
Qed.

Lemma missing_categorical_input_rejected_witness :
  (encoders Sample.with_encoders ≠ PyNone ∧
     (category Sample.food_high_codes = None ∨
      priority_flag Sample.food_high_codes = None)) ∧
  (encoders Sample.bare = PyNone ∧
     (category_enc Sample.food_high = None ∨
      priority_enc Sample.food_high = None)) ∧
  outcome (predict Sample.with_encoders Sample.food_high_codes)
  = Raise (HTTPException 400 detail_strings) ∧
  outcome (predict Sample.bare Sample.food_high)
  = Raise (HTTPException 400 detail_numbers).
Proof.
  assert (H1 : encoders Sample.with_encoders ≠ PyNone ∧
     (category Sample.food_high_codes = None ∨
      priority_flag Sample.food_high_codes = None))
    by (split; [discriminate | left; reflexivity]).
  assert (H2 : encoders Sample.bare = PyNone ∧
     (category_enc Sample.food_high = None ∨
      priority_enc Sample.food_high = None))
    by (split; [reflexivity | left; reflexivity]).
  split; [exact H1 |]. split; [exact H2 |]. split.
  - exact (proj1 (missing_categorical_input_rejected _ _ (or_introl H1))).
  - exact (proj1 (missing_categorical_input_rejected _ _ (or_intror H2))).
Defined.



(** C3: encoder consistency.  A request with string labels, served from a
    bundle with encoders, gets the same answer as a request with the same
    numeric fields and the codes those encoders assign to the labels, served
    from the same model and feature order without encoders. *)
Theorem encoder_consistency (b : Bundle) (es : gmap string Encoder)
    (enc_c enc_p : Encoder) (labelled coded : ExpenseInput)
    (c p : string) (code_c code_p : Z) :
  encoders b = PyEncoders es →
  es !! "category" = Some enc_c → es !! "priority_flag" = Some enc_p →
  category labelled = Some c → priority_flag labelled = Some p →
  code_for enc_c c = Ok code_c → code_for enc_p p = Ok code_p →
  category_enc coded = Some code_c → priority_enc coded = Some code_p →
  same_numeric_fields labelled coded →
  predict b labelled = predict (without_encoders b) coded.
Proof.
  intros Hes Hec Hep Hc Hp Hcc Hcp Hce Hpe (Hx & Hy & Ha & Hr & Ht & Hq & Hf).
  rewrite !predict_unfold.
  rewrite (resolve_encodings_strings b labelled es c p Hes Hc Hp).
  rewrite Hec, Hcc, Hep, Hcp.
  rewrite (resolve_encodings_codes (without_encoders b) coded code_c code_p
             eq_refl Hce Hpe).
  unfold outcome, mret, M_ret; simpl snd.
  unfold assemble_row. rewrite Hx, Hy, Ha, Hr, Ht, Hq, Hf.
  rewrite !infer_unfold. reflexivity.
Qed.

Lemma encoder_consistency_witness :
  code_for Sample.category_encoder "Food" = Ok 2 ∧
  code_for Sample.priority_encoder "High" = Ok 1 ∧
  predict Sample.with_encoders Sample.food_high
  = predict (without_encoders Sample.with_encoders) Sample.food_high_codes.
Proof.
  split; [reflexivity |]. split; [reflexivity |].
  apply (encoder_consistency Sample.with_encoders Sample.label_encoders
           Sample.category_encoder Sample.priority_encoder
           Sample.food_high Sample.food_high_codes "Food" "High" 2 1);
    try reflexivity.
  repeat split; reflexivity.
Defined.

(** A three-class estimator behind the same handler: the labels are known
    to the encoders, the request is valid, and the flag that comes back
    is 2. *)
Lemma three_way_flag_is_not_binary :
  code_for Sample.category_encoder "Food" = Ok 2 ∧
  code_for Sample.priority_encoder "High" = Ok 1 ∧
  outcome (predict Sample.with_three_way Sample.food_high)
  = Ok {| recommend_flag := 2 |} ∧
  ¬ (∃ resp, outcome (predict Sample.with_three_way Sample.food_high) = Ok resp
             ∧ (recommend_flag resp = 0 ∨ recommend_flag resp = 1)).
Proof.
  split_and!; [reflexivity | reflexivity | reflexivity |].
  intros (resp & Hresp & Hflag).
  assert (Hout : outcome (predict Sample.with_three_way Sample.food_high)
                 = Ok {| recommend_flag := 2 |}) by reflexivity.
  rewrite Hout in Hresp. injection Hresp as <-. simpl in Hflag. lia.
Qed.

(** C4, amended: take a bundle with an estimator, with encoders for both
    fields and with a feature order inside the assembled columns, and a
    request whose labels the encoders know.  Then [predict] calls the
    estimator once, on the selected row, and its outcome is the
    estimator's first prediction for that row read as an int: when that
    reading gives an integer [z], the response is returned and its
    [recommend_flag] is [z], whatever [z] is; when the estimator raises,
    returns no prediction, or [int] rejects the prediction, no response is
    returned.  So a returned flag is 0 or 1 exactly when the estimator's
    first prediction for that row reads as 0 or 1. *)
Theorem recommend_flag_is_first_prediction (b : Bundle) (m : Estimator)
    (es : gmap string Encoder) (enc_c enc_p : Encoder) (names : list string)
    (expense : ExpenseInput) (c p : string) (code_c code_p : Z) :
  model b = PyEstimator m → encoders b = PyEncoders es →
  feature_order b = PyNames names → names ⊆ ROW_COLUMNS →
  es !! "category" = Some enc_c → es !! "priority_flag" = Some enc_p →
  category expense = Some c → priority_flag expense = Some p →
  code_for enc_c c = Ok code_c → code_for enc_p p = Ok code_p →
  ∃ X,
    DataFrame_getitem (assemble_row expense (code_c, code_p)) names = Ok X
    ∧ trace (predict b expense) = [ModelPredict X]
    ∧ outcome (predict b expense) = respond (first_as_int (est_predict m X))
    ∧ (∀ z, first_as_int (est_predict m X) = Ok z →
         outcome (predict b expense) = Ok {| recommend_flag := z |})
    ∧ (∀ err, first_as_int (est_predict m X) = Raise err →
         outcome (predict b expense) = Raise (Uncaught err))
    ∧ (∀ resp, outcome (predict b expense) = Ok resp →
         (recommend_flag resp = 0 ∨ recommend_flag resp = 1)
         ↔ (first_as_int (est_predict m X) = Ok 0
            ∨ first_as_int (est_predict m X) = Ok 1)).
Proof.
  intros Hm Hes Hfo Hsub Hec Hep Hc Hp Hcc Hcp.
  destruct (getitem_known_names expense (code_c, code_p) names Hsub)
    as (X & HX & _).
  rewrite (predict_with_labels b m es enc_c enc_p names expense c p
             code_c code_p X Hm Hes Hfo Hec Hep Hc Hp Hcc Hcp HX).
  exists X. unfold trace, outcome; simpl fst; simpl snd.
  split_and!; [exact HX | reflexivity | reflexivity | | |].
  - intros z ->. reflexivity.
  - intros err ->. reflexivity.
  - intros resp.
    destruct (first_as_int (est_predict m X)) as [z | err]; simpl;
      [| discriminate].
    intros [= <-]. simpl. split.
    + intros [-> | ->]; [left | right]; reflexivity.
    + intros [[= ->] | [= ->]]; [left | right]; reflexivity.
Qed.

Lemma recommend_flag_is_first_prediction_witness :
  DEFAULT_FEATURE_ORDER ⊆ ROW_COLUMNS ∧
  ∃ X,
    DataFrame_getitem (assemble_row Sample.food_high (2, 1)) DEFAULT_FEATURE_ORDER
    = Ok X
    ∧ trace (predict Sample.with_three_way Sample.food_high) = [ModelPredict X]
    ∧ outcome (predict Sample.with_three_way Sample.food_high)
      = respond (first_as_int (est_predict Sample.three_way X))
    ∧ (∀ z, first_as_int (est_predict Sample.three_way X) = Ok z →
         outcome (predict Sample.with_three_way Sample.food_high)
         = Ok {| recommend_flag := z |})
    ∧ (∀ err, first_as_int (est_predict Sample.three_way X) = Raise err →
         outcome (predict Sample.with_three_way Sample.food_high)
         = Raise (Uncaught err))
    ∧ (∀ resp, outcome (predict Sample.with_three_way Sample.food_high) = Ok resp →
         (recommend_flag resp = 0 ∨ recommend_flag resp = 1)
         ↔ (first_as_int (est_predict Sample.three_way X) = Ok 0
            ∨ first_as_int (est_predict Sample.three_way X) = Ok 1)).
Proof.
  assert (Hsub : DEFAULT_FEATURE_ORDER ⊆ ROW_COLUMNS) by (intros c Hc; exact Hc).
  split; [exact Hsub |].
  exact (recommend_flag_is_first_prediction Sample.with_three_way
           Sample.three_way Sample.label_encoders Sample.category_encoder
           Sample.priority_encoder DEFAULT_FEATURE_ORDER Sample.food_high
           "Food" "High" 2 1
           eq_refl eq_refl eq_refl Hsub eq_refl eq_refl eq_refl eq_refl
           eq_refl eq_refl).
Defined.

(** A feature order that lists only two of the nine columns is served:
    the estimator is called with the two-column table.  So a feature order
    that does not match the assembled columns exactly need not fail. *)
Lemma partial_feature_order_is_served :
  ¬ (¬ same_columns ["income_x"; "income_y"] →
     trace (predict Sample.incomes_only Sample.food_high) = []
     ∧ ∃ e, outcome (predict Sample.incomes_only Sample.food_high) = Raise e).
Proof.
  intros H. destruct H as [Hsilent _]; [| discriminate Hsilent].
  intros Hsame. destruct (Hsame "risk_flag") as [_ Hin].
  assert (Hrisk : "risk_flag" ∈ ["income_x"; "income_y"])
    by (apply Hin, (bool_decide_unpack _); vm_compute; reflexivity).
  apply (bool_decide_pack _) in Hrisk. vm_compute in Hrisk. exact Hrisk.
Qed.

(** C5, amended: what [feature_order] does to a request is decided by its
    names alone.  When it names a column that is not one of the nine
    columns of the assembled row, the estimator is never called, and once
    the encoding step has produced its codes the column selection raises a
    [KeyError] listing that name, which leaves the handler as a
    server-side failure (status 500).  When every name it lists is one of
    the nine columns (so it may omit, repeat or reorder them), the
    selection succeeds once the encoding step has produced its codes: the
    table has exactly the listed columns, in the listed order, and an
    estimator in the bundle is called with it. *)
Theorem feature_order_names_decide_assembly (b : Bundle) (expense : ExpenseInput)
    (names : list string) :
  feature_order b = PyNames names →
  (∀ c, c ∈ names → c ∉ ROW_COLUMNS →
     trace (predict b expense) = [] ∧
     (∀ codes, outcome (resolve_encodings b expense) = Ok codes →
        ∃ missing, c ∈ missing
          ∧ predict b expense = raise (Uncaught (KeyError missing))
          ∧ http_status (outcome (predict b expense)) = 500)) ∧
  (names ⊆ ROW_COLUMNS →
     ∀ codes, outcome (resolve_encodings b expense) = Ok codes →
       ∃ X, DataFrame_getitem (assemble_row expense codes) names = Ok X
            ∧ columns X = names
            ∧ (∀ m, model b = PyEstimator m →
                 predict b expense
                 = ([ModelPredict X],
                    respond (first_as_int (est_predict m X))))).
Proof.
  intros Hfo. split.
  - intros c Hc Hnot. rewrite predict_unfold.
    destruct (outcome (resolve_encodings b expense)) as [codes | e].
    + destruct (getitem_unknown_name expense codes names c Hc Hnot)
        as (missing & Hmiss & Hraise).
      rewrite infer_unfold, Hfo, Hraise.
      split; [reflexivity |]. intros codes' _.
      exists missing. split_and!; [exact Hmiss | reflexivity | reflexivity].
    + split; [reflexivity |]. intros codes Hcodes. discriminate Hcodes.
  - intros Hsub codes Hcodes.
    destruct (getitem_known_names expense codes names Hsub) as (X & HX & Hcols).
    exists X. split_and!; [exact HX | exact Hcols |].
    intros m Hm. rewrite predict_unfold, Hcodes, infer_unfold, Hfo, HX, Hm.
    reflexivity.
Qed.

Lemma feature_order_names_decide_assembly_witness :
  "currency_enc" ∈ ["income_x"; "currency_enc"] ∧
  ("currency_enc" ∉ ROW_COLUMNS) ∧
  ["risk_flag"; "income_x"; "income_x"] ⊆ ROW_COLUMNS ∧
  outcome (resolve_encodings Sample.with_currency_column Sample.food_high)
  = Ok (2, 1) ∧
  outcome (resolve_encodings Sample.risk_then_income Sample.food_high)
  = Ok (2, 1) ∧
  trace (predict Sample.with_currency_column Sample.food_high) = [] ∧
  (∃ missing, "currency_enc" ∈ missing
     ∧ predict Sample.with_currency_column Sample.food_high
       = raise (Uncaught (KeyError missing))
     ∧ http_status (outcome (predict Sample.with_currency_column
                               Sample.food_high)) = 500) ∧
  ∃ X, DataFrame_getitem (assemble_row Sample.food_high (2, 1))
         ["risk_flag"; "income_x"; "income_x"] = Ok X
       ∧ columns X = ["risk_flag"; "income_x"; "income_x"]
       ∧ predict Sample.risk_then_income Sample.food_high
         = ([ModelPredict X],
            respond (first_as_int (est_predict Sample.cautious X))).
Proof.
  assert (H1 : "currency_enc" ∈ ["income_x"; "currency_enc"])
    by (right; left).
  assert (H2 : "currency_enc" ∉ ROW_COLUMNS)
    by (apply (bool_decide_unpack _); vm_compute; reflexivity).
  assert (H3 : ["risk_flag"; "income_x"; "income_x"] ⊆ ROW_COLUMNS)
    by (apply (bool_decide_unpack _); vm_compute; reflexivity).
  assert (H4 : outcome (resolve_encodings Sample.with_currency_column
                          Sample.food_high) = Ok (2, 1)) by reflexivity.
  assert (H5 : outcome (resolve_encodings Sample.risk_then_income
                          Sample.food_high) = Ok (2, 1)) by reflexivity.
  split_and!; try assumption.
  - exact (proj1 (proj1 (feature_order_names_decide_assembly
                           Sample.with_currency_column Sample.food_high
                           ["income_x"; "currency_enc"] eq_refl)
                    "currency_enc" H1 H2)).
  - exact (proj2 (proj1 (feature_order_names_decide_assembly
                           Sample.with_currency_column Sample.food_high
                           ["income_x"; "currency_enc"] eq_refl)
                    "currency_enc" H1 H2) (2, 1) H4).
  - destruct (proj2 (feature_order_names_decide_assembly
                       Sample.risk_then_income Sample.food_high
                       ["risk_flag"; "income_x"; "income_x"] eq_refl)
                H3 (2, 1) H5) as (X & HX & Hcols & Hcall).
    exists X. split_and!; [exact HX | exact Hcols |].
    exact (Hcall Sample.cautious eq_refl).
Defined.

(** C6: with encoders in the bundle, [category_enc] and [priority_enc] of
    the request are ignored: two requests that differ in nothing else get
    the same answer, with the same model call. *)
Theorem codes_ignored_with_encoders (b : Bundle) (e1 e2 : ExpenseInput) :
  encoders b ≠ PyNone →
  same_except_codes e1 e2 →
  predict b e1 = predict b e2.
Proof.
  intros Henc (Hnum & Hc & Hp & _).
  apply predict_ext; [| exact Hnum].
  unfold resolve_encodings.
  destruct (encoders b); [contradiction | ..]; rewrite Hc, Hp; reflexivity.
Qed.

Lemma codes_ignored_with_encoders_witness :
  encoders Sample.with_encoders ≠ PyNone ∧
  same_except_codes Sample.food_high Sample.food_high_stale_codes ∧
  predict Sample.with_encoders Sample.food_high
  = predict Sample.with_encoders Sample.food_high_stale_codes.
Proof.
  assert (H1 : encoders Sample.with_encoders ≠ PyNone) by discriminate.
  assert (H2 : same_except_codes Sample.food_high Sample.food_high_stale_codes)
    by (repeat split; reflexivity).
  split; [exact H1 |]. split; [exact H2 |].
  exact (codes_ignored_with_encoders _ _ _ H1 H2).
Defined.

(** C7: the spec's scenario.  The body [{income_x: 5000, income_y: 2000,
    expense_amount: 300, category: "Food", priority_flag: "High",
    cutoff_rate: 0.3, total_expenses: 1200, expense_ratio: 0.24,
    risk_flag: 0}] validates to the record [Sample.food_high]; against a
    bundle whose encoders give "Food" the code 2 and "High" the code 1 and
    whose feature order is the default one, the estimator is called once,
    with the row [5000, 2000, 300, 2, 1, 0.3, 1200, 0.24, 0] under the nine
    default columns, and the answer's [recommend_flag] is the estimator's
    first prediction for that row read as an int. *)
Theorem food_high_scenario (b : Bundle) (m : Estimator)
    (es : gmap string Encoder) (enc_c enc_p : Encoder) :
  model b = PyEstimator m → encoders b = PyEncoders es →
  feature_order b = PyNames DEFAULT_FEATURE_ORDER →
  es !! "category" = Some enc_c → es !! "priority_flag" = Some enc_p →
  code_for enc_c "Food" = Ok 2 → code_for enc_p "High" = Ok 1 →
  post_predict (V := plain_validators) b Sample.food_high_body
  = predict b Sample.food_high ∧
  predict b Sample.food_high
  = ([ModelPredict Sample.food_high_row],
     respond (first_as_int (est_predict m Sample.food_high_row))) ∧
  columns Sample.food_high_row = DEFAULT_FEATURE_ORDER ∧
  values Sample.food_high_row
  = [ VFloat 5000; VFloat 2000; VFloat 300; VInt 2; VInt 1;
      VFloat 0.3; VFloat 1200; VFloat 0.24; VInt 0 ].
Proof.
  intros Hm Hes Hfo Hec Hep Hcc Hcp.
  split_and!; [| | reflexivity | reflexivity].
  - unfold post_predict. rewrite Sample.validate_food_high_body. reflexivity.
  - apply (predict_with_labels b m es enc_c enc_p DEFAULT_FEATURE_ORDER
             Sample.food_high "Food" "High" 2 1); try assumption; reflexivity.
Qed.

Lemma food_high_scenario_witness :
  code_for Sample.category_encoder "Food" = Ok 2 ∧
  code_for Sample.priority_encoder "High" = Ok 1 ∧
  predict Sample.with_encoders Sample.food_high
  = ([ModelPredict Sample.food_high_row],
     respond (first_as_int (est_predict Sample.cautious Sample.food_high_row))).
Proof.
  split; [reflexivity |]. split; [reflexivity |].
  exact (proj1 (proj2 (food_high_scenario Sample.with_encoders Sample.cautious
           Sample.label_encoders Sample.category_encoder Sample.priority_encoder
           eq_refl eq_refl eq_refl eq_refl eq_refl eq_refl eq_refl))).
Defined.

(** C8: a loaded value that is not a dict is taken as the model itself,
    with no encoders and the default feature order; a dict without the key
    "feature_order" gets the default feature order too; and the default is
    the nine columns income_x, income_y, expense_amount, category_enc,
    priority_enc, cutoff_rate, total_expenses, expense_ratio, risk_flag. *)
Theorem loader_defaults :
  (∀ m, load_bundle (LoadedEstimator m)
        = {| model := PyEstimator m; encoders := PyNone;
             feature_order := PyNames DEFAULT_FEATURE_ORDER |}) ∧
  (∀ d, d !! "feature_order" = None →
        feature_order (load_bundle (LoadedDict d))
        = PyNames DEFAULT_FEATURE_ORDER) ∧
  DEFAULT_FEATURE_ORDER
  = [ "income_x"; "income_y"; "expense_amount"; "category_enc";
      "priority_enc"; "cutoff_rate"; "total_expenses"; "expense_ratio";
      "risk_flag" ].
Proof.
  split_and!; [reflexivity | | reflexivity].
  intros d Hd. unfold load_bundle, dict_get; simpl. rewrite Hd. reflexivity.
Qed.

Lemma loader_defaults_witness :
  ({[ "model" := PyEstimator Sample.three_way;
      "encoders" := PyEncoders Sample.label_encoders ]} : gmap string pyobj)
    !! "feature_order" = None ∧
  feature_order Sample.with_three_way = PyNames DEFAULT_FEATURE_ORDER.
Proof.
  split; [reflexivity |].
  apply (proj1 (proj2 loader_defaults)). reflexivity.
Defined.

(** C9: the currency field never influences inference.  Two requests that
    agree on every field other than [currency] (which may be absent in
    either) get the same answer from [predict], with the same model call. *)
Theorem currency_never_consumed (b : Bundle) (e1 e2 : ExpenseInput) :
  same_except_currency e1 e2 →
  predict b e1 = predict b e2.
Proof.
  intros (Hnum & Hc & Hp & Hce & Hpe).
  apply predict_ext; [| exact Hnum].
  unfold resolve_encodings. rewrite Hc, Hp, Hce, Hpe. reflexivity.
Qed.

Lemma currency_never_consumed_witness :
  same_except_currency Sample.food_high Sample.food_high_rwf ∧
  predict Sample.with_encoders Sample.food_high
  = predict Sample.with_encoders Sample.food_high_rwf.
Proof.
  assert (H : same_except_currency Sample.food_high Sample.food_high_rwf)
    by (repeat split; reflexivity).
  split; [exact H | exact (currency_never_consumed _ _ _ H)].
Defined.

(** C10: [encoders["category"]] and [encoders["priority_flag"]] are not
    guarded.  For a request that supplies both strings: when the encoders
    mapping lacks either key, the request fails with an exception the
    handler does not catch, hence with status 500 and not 400, and the
    estimator is never called.  When "category" is the missing key the
    exception is the [KeyError] of that lookup; when "category" is there
    and encodes the label and "priority_flag" is missing, it is the
    [KeyError] of the second lookup.  So [predict] returns an answer only
    if the mapping has both keys. *)
Theorem encoders_lacking_key_fail_server_side (b : Bundle)
    (es : gmap string Encoder) (expense : ExpenseInput) (c p : string) :
  encoders b = PyEncoders es →
  category expense = Some c → priority_flag expense = Some p →
  (es !! "category" = None ∨ es !! "priority_flag" = None →
     (∃ err, predict b expense = raise (Uncaught err)) ∧
     http_status (outcome (predict b expense)) = 500 ∧
     trace (predict b expense) = []) ∧
  (es !! "category" = None →
     predict b expense = raise (Uncaught (KeyError ["category"]))) ∧
  (∀ enc_c code_c,
     es !! "category" = Some enc_c → code_for enc_c c = Ok code_c →
     es !! "priority_flag" = None →
     predict b expense = raise (Uncaught (KeyError ["priority_flag"]))) ∧
  (∀ resp, outcome (predict b expense) = Ok resp →
     is_Some (es !! "category") ∧ is_Some (es !! "priority_flag")).
Proof.
  intros Hes Hc Hp.
  rewrite predict_unfold, (resolve_encodings_strings b expense es c p Hes Hc Hp).
  destruct (es !! "category") as [enc_c |] eqn:Hec.
  - destruct (code_for enc_c c) as [code_c | e] eqn:Hcode.
    + destruct (es !! "priority_flag") as [enc_p |] eqn:Hep.
      * split_and!.
        -- intros [? | ?]; discriminate.
        -- discriminate.
        -- intros ? ? _ _ ?; discriminate.
        -- intros _ _. split; eexists; reflexivity.
      * split_and!.
        -- intros _. split_and!; [eexists |..]; reflexivity.
        -- discriminate.
        -- intros ? ? _ _ _. reflexivity.
        -- simpl. intros resp Hresp. discriminate Hresp.
    + split_and!.
      * intros _. split_and!; [eexists |..]; reflexivity.
      * discriminate.
      * intros enc_c' code_c [= <-] Hcode'. congruence.
      * simpl. intros resp Hresp. discriminate Hresp.
  - split_and!.
    + intros _. split_and!; [eexists |..]; reflexivity.
    + reflexivity.
    + discriminate.
    + simpl. intros resp Hresp. discriminate Hresp.
Qed.

Lemma encoders_lacking_key_fail_server_side_witness :
  Sample.label_only !! "priority_flag" = None ∧
  predict Sample.category_only Sample.food_high
  = raise (Uncaught (KeyError ["priority_flag"])) ∧
  http_status (outcome (predict Sample.category_only Sample.food_high)) = 500.
Proof.
  assert (H : Sample.label_only !! "priority_flag" = None) by reflexivity.
  pose proof (encoders_lacking_key_fail_server_side Sample.category_only
                Sample.label_only Sample.food_high "Food" "High"
                eq_refl eq_refl eq_refl) as (Hfail & _ & Hsecond & _).
  split; [exact H |]. split.
  - exact (Hsecond Sample.category_encoder 2 eq_refl eq_refl H).
  - exact (proj1 (proj2 (Hfail (or_intror H)))).
Defined.

(** ** Further properties of the code *)

(** *** Import: locating and loading the bundle *)

Lemma append_assoc (s1 s2 s3 : string) :
  (s1 +:+ s2) +:+ s3 = s1 +:+ (s2 +:+ s3).
Proof.
  induction s1 as [| a s1 IH]; [reflexivity |].
  change (String a ((s1 +:+ s2) +:+ s3) = String a (s1 +:+ (s2 +:+ s3))).
  f_equal. exact IH.
Qed.

(** The loop returns a path only if it exists, it is a candidate, and no
    earlier candidate exists. *)
Lemma first_existing_Some {D : Disk} (backend_dir : Path) (names : list string)
    (p : Path) :
  first_existing backend_dir names = Some p →
  ∃ before name after,
    names = (before ++ name :: after)%list
    ∧ p = joinpath backend_dir name
    ∧ path_exists p = true
    ∧ Forall (λ n, path_exists (joinpath backend_dir n) = false) before.
Proof.
  induction names as [| name rest IH]; simpl; [discriminate |].
  destruct (path_exists (joinpath backend_dir name)) eqn:Hex.
  - intros [= <-]. exists [], name, rest. split_and!; auto.
  - intros Hrest. destruct (IH Hrest) as (before & n & after & -> & -> & Hp & Hall).
    exists (name :: before), n, after. split_and!; auto.
Qed.

Lemma first_existing_None {D : Disk} (backend_dir : Path) (names : list string) :
  first_existing backend_dir names = None
  ↔ Forall (λ n, path_exists (joinpath backend_dir n) = false) names.
Proof.
  induction names as [| name rest IH]; simpl.
  - split; [constructor | reflexivity].
  - destruct (path_exists (joinpath backend_dir name)) eqn:Hex.
    + split; [discriminate |]. intros Hall. inversion Hall; congruence.
    + rewrite IH. split; [intros H; constructor; assumption |].
      intros Hall. inversion Hall; assumption.
Qed.

(** X1: when the import succeeds, the bundle path exists on disk and is the
    first of the two candidate names that exists there:
    recommender_bundle.pkl whenever that file exists, and
    recommendation_bundle.pkl only when it does not; and the globals are
    those of the value [joblib.load] returned for that very path. *)
Theorem bundle_path_is_first_existing {D : Disk} (backend_dir : Path)
    (s : Service) :
  startup backend_dir = Ok s →
  path_exists (bundle_path s) = true ∧
  (bundle_path s = joinpath backend_dir "recommender_bundle.pkl" ∨
   (path_exists (joinpath backend_dir "recommender_bundle.pkl") = false ∧
    bundle_path s = joinpath backend_dir "recommendation_bundle.pkl")) ∧
  ∃ loaded, joblib_load (path_str (bundle_path s)) = Some loaded
            ∧ service_bundle s = load_bundle loaded.
Proof.
  unfold startup.
  destruct (first_existing backend_dir candidate_names) as [p |] eqn:Hp;
    [| discriminate].
  destruct (joblib_load (path_str p)) as [loaded |] eqn:Hload; [| discriminate].
  intros [= <-]. simpl.
  apply first_existing_Some in Hp
    as (before & name & after & Hnames & -> & Hex & Hall).
  split; [exact Hex |]. split; [| exists loaded; auto].
  unfold candidate_names in Hnames.
  destruct before as [| n1 before]; simpl in Hnames.
  - injection Hnames as <- _. left. reflexivity.
  - injection Hnames as <- Hrest. inversion Hall as [| ? ? Hn1 Hall']; subst.
    right. split; [exact Hn1 |].
    destruct before as [| n2 before]; simpl in Hrest.
    + injection Hrest as <- _. reflexivity.
    + injection Hrest as _ Hnil. destruct before; discriminate Hnil.
Qed.

Lemma bundle_path_is_first_existing_witness :
  ∃ s, startup (D := Sample.variant_only) "/srv/backend" = Ok s
       ∧ bundle_path s = "/srv/backend/recommendation_bundle.pkl"
       ∧ path_exists (bundle_path s) = true.
Proof.
  eexists. split; [vm_compute; reflexivity |]. split; [reflexivity |].
  exact (proj1 (bundle_path_is_first_existing (D := Sample.variant_only)
                  "/srv/backend" _ eq_refl)).
Defined.

Lemma tried_lists_candidates {D : Disk} (backend_dir : Path) (name : string) :
  name ∈ candidate_names →
  occurs_in (path_str (joinpath backend_dir name)) (not_found_message backend_dir).
Proof.
  intros Hname. unfold not_found_message, tried, candidate_names in *.
  cbn [map String.concat].
  apply elem_of_cons in Hname as [-> | Hname];
    [| apply elem_of_cons in Hname as [-> | Hname]; [| inversion Hname]].
  - exists "Model bundle not found. Tried: ",
      ((", " +:+ path_str (joinpath backend_dir "recommendation_bundle.pkl"))
       +:+ ". "
       +:+ "Place the bundle with one of these names or update the code.").
    rewrite !append_assoc. reflexivity.
  - exists ("Model bundle not found. Tried: "
            +:+ path_str (joinpath backend_dir "recommender_bundle.pkl")
            +:+ ", "),
      (". " +:+ "Place the bundle with one of these names or update the code.").
    rewrite !append_assoc. reflexivity.
Qed.

(** X2: the import stops with [FileNotFoundError] exactly when neither
    candidate file exists, and the message of that error contains the path
    of every candidate that was tried. *)
Theorem bundle_not_found_lists_candidates {D : Disk} (backend_dir : Path) :
  ((path_exists (joinpath backend_dir "recommender_bundle.pkl") = false ∧
    path_exists (joinpath backend_dir "recommendation_bundle.pkl") = false)
   ↔ ∃ msg, startup backend_dir = Raise (FileNotFoundError msg)) ∧
  (∀ msg, startup backend_dir = Raise (FileNotFoundError msg) →
     ∀ name, name ∈ candidate_names →
       occurs_in (path_str (joinpath backend_dir name)) msg).
Proof.
  unfold startup. split.
  - assert (Hnone :
      (path_exists (joinpath backend_dir "recommender_bundle.pkl") = false ∧
       path_exists (joinpath backend_dir "recommendation_bundle.pkl") = false)
      ↔ first_existing backend_dir candidate_names = None).
    { rewrite first_existing_None. unfold candidate_names.
      rewrite Forall_cons, Forall_singleton. reflexivity. }
    rewrite Hnone.
    destruct (first_existing backend_dir candidate_names) as [p |].
    + split; [discriminate |]. intros [msg Hmsg].
      destruct (joblib_load (path_str p)); discriminate Hmsg.
    + split; [eauto | reflexivity].
  - intros msg Hmsg name Hname.
    destruct (first_existing backend_dir candidate_names) as [p |].
    + destruct (joblib_load (path_str p)); discriminate Hmsg.
    + injection Hmsg as <-. apply tried_lists_candidates, Hname.
Qed.

Lemma bundle_not_found_lists_candidates_witness :
  (∃ msg, startup (D := Sample.empty_dir) "/srv/backend"
          = Raise (FileNotFoundError msg)) ∧
  occurs_in "/srv/backend/recommendation_bundle.pkl"
    (not_found_message (D := Sample.empty_dir) "/srv/backend").
Proof.
  pose proof (bundle_not_found_lists_candidates (D := Sample.empty_dir)
                "/srv/backend") as [Hiff Hmsg].
  split.
  - apply Hiff. split; reflexivity.
  - apply (Hmsg _ eq_refl "recommendation_bundle.pkl").
    right; left.
Defined.

(** X3: on a service that started, the root endpoint answers with status
    "ok" and with the path of the bundle file that was found and loaded: a
    file that exists, and whose unpickled value the globals come from. *)
Theorem root_reports_loaded_bundle {D : Disk} (backend_dir : Path) (s : Service) :
  startup backend_dir = Ok s →
  entry "status" (root s) = Some "ok" ∧
  ∃ p loaded,
    entry "bundle_path" (root s) = Some (path_str p)
    ∧ path_exists p = true
    ∧ joblib_load (path_str p) = Some loaded
    ∧ service_bundle s = load_bundle loaded.
Proof.
  unfold startup.
  destruct (first_existing backend_dir candidate_names) as [p |] eqn:Hp;
    [| discriminate].
  destruct (joblib_load (path_str p)) as [loaded |] eqn:Hload; [| discriminate].
  intros [= <-]. split; [reflexivity |].
  exists p, loaded. split_and!; try reflexivity; [| exact Hload].
  apply first_existing_Some in Hp as (_ & _ & _ & _ & _ & Hex & _). exact Hex.
Qed.

Lemma root_reports_loaded_bundle_witness :
  ∃ s, startup (D := Sample.variant_only) "/srv/backend" = Ok s
       ∧ entry "status" (root s) = Some "ok"
       ∧ entry "bundle_path" (root s)
         = Some "/srv/backend/recommendation_bundle.pkl".
Proof.
  eexists. split; [vm_compute; reflexivity |].
  split; [| reflexivity].
  exact (proj1 (root_reports_loaded_bundle (D := Sample.variant_only)
                  "/srv/backend" _ eq_refl)).
Defined.

(** *** The handler *)

(** X4: without encoders in the bundle, the strings [category],
    [priority_flag] and [currency] of the request are never read: two
    requests that differ in nothing else get the same answer, with the same
    model call. *)
Theorem strings_ignored_without_encoders (b : Bundle) (e1 e2 : ExpenseInput) :
  encoders b = PyNone →
  same_except_strings e1 e2 →
  predict b e1 = predict b e2.
Proof.
  intros Henc (Hnum & Hce & Hpe).
  apply predict_ext; [| exact Hnum].
  unfold resolve_encodings. rewrite Henc, Hce, Hpe. reflexivity.
Qed.

Lemma strings_ignored_without_encoders_witness :
  encoders Sample.bare = PyNone ∧
  same_except_strings Sample.food_high_codes Sample.food_high_stale_labels ∧
  predict Sample.bare Sample.food_high_codes
  = predict Sample.bare Sample.food_high_stale_labels.
Proof.
  assert (H : same_except_strings Sample.food_high_codes
                Sample.food_high_stale_labels) by (repeat split; reflexivity).
  split; [reflexivity |]. split; [exact H |].
  exact (strings_ignored_without_encoders Sample.bare _ _ eq_refl H).
Defined.

(** What a run of the handler can look like: nothing was called and an
    exception left, or the estimator was called once and its first
    prediction decided the outcome. *)
Lemma predict_shape (b : Bundle) (expense : ExpenseInput) :
  (∃ e, predict b expense = raise e) ∨
  (∃ codes names X m,
     outcome (resolve_encodings b expense) = Ok codes
     ∧ feature_order b = PyNames names
     ∧ DataFrame_getitem (assemble_row expense codes) names = Ok X
     ∧ model b = PyEstimator m
     ∧ predict b expense
       = ([ModelPredict X], respond (first_as_int (est_predict m X)))).
Proof.
  rewrite predict_unfold.
  destruct (outcome (resolve_encodings b expense)) as [codes | e] eqn:Hcodes;
    [| left; eauto].
  rewrite infer_unfold.
  destruct (feature_order b) as [| | | names] eqn:Hfo; try (left; eauto; fail).
  destruct (DataFrame_getitem (assemble_row expense codes) names)
    as [X | e] eqn:HX; [| left; eauto].
  destruct (model b) as [| m | |] eqn:Hm; try (left; eauto; fail).
  right. exists codes, names, X, m. auto.
Qed.

(** X5: a request makes at most one call of the estimator, and an answer is
    never made up: whenever [predict] returns, the estimator was called
    exactly once and [recommend_flag] is its first prediction for the table
    of that call, read as an int. *)
Theorem answer_comes_from_one_model_call (b : Bundle) (expense : ExpenseInput) :
  (length (trace (predict b expense)) ≤ 1)%nat ∧
  (∀ resp, outcome (predict b expense) = Ok resp →
     ∃ X m, model b = PyEstimator m
            ∧ trace (predict b expense) = [ModelPredict X]
            ∧ first_as_int (est_predict m X) = Ok (recommend_flag resp)).
Proof.
  destruct (predict_shape b expense)
    as [[e ->] | (codes & names & X & m & _ & _ & _ & Hm & ->)].
  - split; [simpl; lia | discriminate].
  - split; [simpl; lia |]. unfold outcome; simpl snd. intros resp Hresp.
    exists X, m. split_and!; [exact Hm | reflexivity |].
    destruct (first_as_int (est_predict m X)) as [z | err]; simpl in Hresp;
      [| discriminate]. injection Hresp as <-. reflexivity.
Qed.

Lemma answer_comes_from_one_model_call_witness :
  outcome (predict Sample.with_encoders Sample.food_high)
  = Ok {| recommend_flag := 1 |} ∧
  ∃ X m, model Sample.with_encoders = PyEstimator m
         ∧ trace (predict Sample.with_encoders Sample.food_high) = [ModelPredict X]
         ∧ first_as_int (est_predict m X) = Ok 1.
Proof.
  split; [reflexivity |].
  exact (proj2 (answer_comes_from_one_model_call Sample.with_encoders
                  Sample.food_high) {| recommend_flag := 1 |} eq_refl).
Defined.

Lemma take_columns_cells (df : DataFrame) (names : list string) (X : DataFrame) :
  take_columns df names = Some X →
  ∀ c v, (c, v) ∈ X → get_loc c df = Some v.
Proof.
  revert X. induction names as [| c' rest IH]; intros X; simpl.
  - intros [= <-] c v Hin. inversion Hin.
  - destruct (get_loc c' df) as [v' |] eqn:Hv'; [| discriminate]. simpl.
    destruct (take_columns df rest) as [X' |]; [| discriminate]. simpl.
    intros [= <-] c v Hin. apply elem_of_cons in Hin as [[= -> ->] | Hin].
    + exact Hv'.
    + eapply IH; [reflexivity | exact Hin].
Qed.

(** X6: columns are never mixed up.  In any table handed to the estimator,
    the cell under a column name is the value the assembled row holds
    under that same name: the request's field of that name, or the code
    the encoding step produced for [category_enc] and [priority_enc]. *)
Theorem table_cells_are_row_fields (b : Bundle) (expense : ExpenseInput)
    (X : DataFrame) :
  ModelPredict X ∈ trace (predict b expense) →
  ∃ codes, outcome (resolve_encodings b expense) = Ok codes
    ∧ ∀ c v, (c, v) ∈ X → get_loc c (assemble_row expense codes) = Some v.
Proof.
  destruct (predict_shape b expense)
    as [[e ->] | (codes & names & X' & m & Hcodes & _ & HX & _ & ->)].
  - intros Hin. inversion Hin.
  - intros Hin. unfold trace in Hin; simpl in Hin.
    apply list_elem_of_singleton in Hin as [= ->].
    exists codes. split; [exact Hcodes |].
    unfold DataFrame_getitem in HX.
    destruct (take_columns (assemble_row expense codes) names) as [X |] eqn:Ht;
      [| discriminate]. injection HX as <-.
    exact (take_columns_cells _ _ _ Ht).
Qed.

Lemma table_cells_are_row_fields_witness :
  ModelPredict [("income_x", VFloat 5000); ("income_y", VFloat 2000)]
    ∈ trace (predict Sample.incomes_only Sample.food_high) ∧
  ∃ codes,
    outcome (resolve_encodings Sample.incomes_only Sample.food_high) = Ok codes
    ∧ ∀ c v, (c, v) ∈ [("income_x", VFloat 5000); ("income_y", VFloat 2000)] →
        get_loc c (assemble_row Sample.food_high codes) = Some v.
Proof.
  assert (Hcall : ModelPredict [("income_x", VFloat 5000); ("income_y", VFloat 2000)]
                    ∈ trace (predict Sample.incomes_only Sample.food_high))
    by (vm_compute; left).
  split; [exact Hcall |].
  exact (table_cells_are_row_fields Sample.incomes_only Sample.food_high _ Hcall).
Defined.

(** X7: a label the encoder rejects is not caught.  When the category
    encoder's [transform] raises, and likewise when the category is encoded
    and the priority encoder's [transform] raises, the request fails with
    that very exception (status 500) and the estimator is never called. *)
Theorem rejected_label_fails_server_side (b : Bundle)
    (es : gmap string Encoder) (enc_c : Encoder) (expense : ExpenseInput)
    (c p : string) (err : pyerr) :
  encoders b = PyEncoders es → es !! "category" = Some enc_c →
  category expense = Some c → priority_flag expense = Some p →
  (transform enc_c [c] = Raise err →
     predict b expense = raise (Uncaught err)) ∧
  (∀ enc_p code_c,
     code_for enc_c c = Ok code_c → es !! "priority_flag" = Some enc_p →
     transform enc_p [p] = Raise err →
     predict b expense = raise (Uncaught err)).
Proof.
  intros Hes Hec Hc Hp.
  rewrite predict_unfold, (resolve_encodings_strings b expense es c p Hes Hc Hp).
  rewrite Hec. split.
  - intros Hraise. unfold code_for. rewrite Hraise. reflexivity.
  - intros enc_p code_c Hcode Hep Hraise. rewrite Hcode, Hep.
    unfold code_for. rewrite Hraise. reflexivity.
Qed.

Lemma rejected_label_fails_server_side_witness :
  transform Sample.category_encoder ["Rent"] = Raise ValueError ∧
  predict Sample.with_encoders Sample.food_high_rent = raise (Uncaught ValueError) ∧
  http_status (outcome (predict Sample.with_encoders Sample.food_high_rent)) = 500.
Proof.
  split; [reflexivity |].
  pose proof (proj1 (rejected_label_fails_server_side Sample.with_encoders
                       Sample.label_encoders Sample.category_encoder
                       Sample.food_high_rent "Rent" "High" ValueError
                       eq_refl eq_refl eq_refl eq_refl) eq_refl) as H.
  split; [exact H | rewrite H; reflexivity].
Defined.

(** Once no required categorical input is missing, the encoding step does
    not raise an [HTTPException]. *)
Lemma resolve_encodings_complete (b : Bundle) (expense : ExpenseInput) :
  missing_fields b expense = [] →
  (∃ codes, outcome (resolve_encodings b expense) = Ok codes) ∨
  (∃ err, outcome (resolve_encodings b expense) = Raise (Uncaught err)).
Proof.
  unfold missing_fields, has_encoders, absent.
  destruct (encoders b) as [| m | es | l] eqn:Henc; simpl;
    [ destruct (category_enc expense) as [c |] eqn:Hc; [| discriminate];
      destruct (priority_enc expense) as [p |] eqn:Hp; [| discriminate]
    | destruct (category expense) as [c |] eqn:Hc; [| discriminate];
      destruct (priority_flag expense) as [p |] eqn:Hp; [| discriminate] .. ];
    intros _.
  - rewrite (resolve_encodings_codes b expense c p Henc Hc Hp). left; eauto.
  - unfold resolve_encodings. rewrite Henc, Hc, Hp. right; eauto.
  - rewrite (resolve_encodings_strings b expense es c p Henc Hc Hp).
    destruct (es !! "category") as [enc_c |]; [| right; eauto].
    destruct (code_for enc_c c); [| right; eauto].
    destruct (es !! "priority_flag") as [enc_p |]; [| right; eauto].
    destruct (code_for enc_p p); [left | right]; eauto.
  - unfold resolve_encodings. rewrite Henc, Hc, Hp. right; eauto.
Qed.

(** X8: the handler answers 200, 400 or 500 and nothing else, and it
    answers 400 exactly when a categorical input that the active mode
    requires is missing from the request. *)
Theorem status_400_iff_missing_input (b : Bundle) (expense : ExpenseInput) :
  (http_status (outcome (predict b expense)) = 400
   ↔ missing_fields b expense ≠ []) ∧
  (http_status (outcome (predict b expense)) = 200 ∨
   http_status (outcome (predict b expense)) = 400 ∨
   http_status (outcome (predict b expense)) = 500).
Proof.
  destruct (missing_fields b expense) as [| f fs] eqn:Hmiss.
  - assert (Hstatus : http_status (outcome (predict b expense)) = 200 ∨
                      http_status (outcome (predict b expense)) = 500).
    { rewrite predict_unfold.
      destruct (resolve_encodings_complete b expense Hmiss)
        as [[codes ->] | [err ->]]; [| right; reflexivity].
      rewrite infer_unfold.
      destruct (feature_order b); try (right; reflexivity).
      destruct (DataFrame_getitem _ _); [| right; reflexivity].
      destruct (model b) as [| m | |]; try (right; reflexivity).
      unfold outcome; simpl snd.
      destruct (first_as_int _); [left | right]; reflexivity. }
    split; [| tauto].
    split; [intros H400; destruct Hstatus; congruence | intros H; congruence].
  - assert (Hne : missing_fields b expense ≠ []) by (rewrite Hmiss; discriminate).
    rewrite (predict_stops_at_encoding _ _ _ (resolve_encodings_missing _ _ Hne)).
    split; [split; [discriminate | reflexivity] | right; left; reflexivity].
Qed.

Lemma status_400_iff_missing_input_witness :
  missing_fields Sample.bare Sample.food_high ≠ [] ∧
  http_status (outcome (predict Sample.bare Sample.food_high)) = 400 ∧
  missing_fields Sample.with_encoders Sample.food_high_rent = [] ∧
  http_status (outcome (predict Sample.with_encoders Sample.food_high_rent)) ≠ 400.
Proof.
  assert (H1 : missing_fields Sample.bare Sample.food_high ≠ []) by discriminate.
  assert (H2 : missing_fields Sample.with_encoders Sample.food_high_rent = [])
    by reflexivity.
  split; [exact H1 |]. split; [| split; [exact H2 |]].
  - exact (proj2 (proj1 (status_400_iff_missing_input Sample.bare
                           Sample.food_high)) H1).
  - intros H400.
    apply (proj1 (proj1 (status_400_iff_missing_input Sample.with_encoders
                           Sample.food_high_rent))) in H400.
    exact (H400 H2).
Defined.

(** X9: a dict bundle without the key "model" loads, but then no request is
    ever answered and the estimator is never called: a request that gets
    through the encoding step and the column selection ends in the
    [AttributeError] of [None.predict] (status 500). *)
Theorem bundle_without_model_never_answers (d : gmap string pyobj)
    (expense : ExpenseInput) :
  d !! "model" = None →
  trace (predict (load_bundle (LoadedDict d)) expense) = [] ∧
  (∀ resp, outcome (predict (load_bundle (LoadedDict d)) expense) ≠ Ok resp) ∧
  (∀ codes names X,
     outcome (resolve_encodings (load_bundle (LoadedDict d)) expense) = Ok codes →
     feature_order (load_bundle (LoadedDict d)) = PyNames names →
     DataFrame_getitem (assemble_row expense codes) names = Ok X →
     predict (load_bundle (LoadedDict d)) expense
     = raise (Uncaught AttributeError)).
Proof.
  intros Hd.
  assert (Hmodel : model (load_bundle (LoadedDict d)) = PyNone).
  { unfold load_bundle, dict_get; simpl. rewrite Hd. reflexivity. }
  split_and!.
  - destruct (predict_shape (load_bundle (LoadedDict d)) expense)
      as [[e ->] | (? & ? & ? & m & _ & _ & _ & Hm & _)];
      [reflexivity | congruence].
  - destruct (predict_shape (load_bundle (LoadedDict d)) expense)
      as [[e ->] | (? & ? & ? & m & _ & _ & _ & Hm & _)];
      [discriminate | congruence].
  - intros codes names X Hcodes Hfo HX.
    rewrite predict_unfold, Hcodes, infer_unfold, Hfo, HX, Hmodel. reflexivity.
Qed.

Lemma bundle_without_model_never_answers_witness :
  Sample.without_model !! "model" = None ∧
  predict (load_bundle (LoadedDict Sample.without_model)) Sample.food_high
  = raise (Uncaught AttributeError).
Proof.
  split; [reflexivity |].
  apply (proj2 (proj2 (bundle_without_model_never_answers Sample.without_model
                         Sample.food_high eq_refl))
           (2, 1) DEFAULT_FEATURE_ORDER Sample.food_high_row);
    reflexivity.
Defined.

(** X10: a bare estimator, loaded as it is, serves every request that
    carries both codes: the estimator is called once with the whole
    assembled row, in the default order of the nine columns, and the answer
    is its first prediction read as an int.  The labels of the request play
    no part. *)
Theorem bare_estimator_serves_coded_requests (m : Estimator)
    (expense : ExpenseInput) (c p : Z) :
  category_enc expense = Some c → priority_enc expense = Some p →
  predict (load_bundle (LoadedEstimator m)) expense
  = ([ModelPredict (assemble_row expense (c, p))],
     respond (first_as_int (est_predict m (assemble_row expense (c, p))))).
Proof.
  intros Hc Hp. rewrite predict_unfold.
  rewrite (resolve_encodings_codes (load_bundle (LoadedEstimator m)) expense c p
             eq_refl Hc Hp).
  unfold outcome, mret, M_ret; simpl snd. cbv beta iota.
  rewrite infer_unfold. reflexivity.
Qed.

Lemma bare_estimator_serves_coded_requests_witness :
  predict Sample.bare Sample.food_high_stale_labels
  = ([ModelPredict Sample.food_high_row], Ok {| recommend_flag := 1 |}).
Proof.
  exact (bare_estimator_serves_coded_requests Sample.cautious
           Sample.food_high_stale_labels 2 1 eq_refl eq_refl).
Defined.

(** X11: a failure of the estimator is not swallowed.  After the call, an
    exception raised by [predict], an empty array of predictions, or a
    first prediction that [int] rejects each leave the handler as an
    uncaught exception (status 500); no default flag is answered. *)
Theorem model_failure_fails_server_side (b : Bundle) (m : Estimator)
    (expense : ExpenseInput) (X : DataFrame) :
  model b = PyEstimator m →
  ModelPredict X ∈ trace (predict b expense) →
  (∀ err, est_predict m X = Raise err →
     outcome (predict b expense) = Raise (Uncaught err)) ∧
  (est_predict m X = Ok [] →
     outcome (predict b expense) = Raise (Uncaught IndexError)) ∧
  (∀ v rest err, est_predict m X = Ok (v :: rest) → py_int v = Raise err →
     outcome (predict b expense) = Raise (Uncaught err)).
Proof.
  intros Hm.
  destruct (predict_shape b expense)
    as [[e ->] | (codes & names & X' & m' & _ & _ & _ & Hm' & ->)].
  - intros Hin. inversion Hin.
  - intros Hin. unfold trace in Hin; simpl in Hin.
    apply list_elem_of_singleton in Hin as [= ->].
    assert (m' = m) as -> by congruence.
    unfold outcome; simpl snd. unfold first_as_int. split_and!.
    + intros err ->. reflexivity.
    + intros ->. reflexivity.
    + intros v rest err -> ->. reflexivity.
Qed.

Lemma model_failure_fails_server_side_witness :
  ModelPredict Sample.food_high_row
    ∈ trace (predict (load_bundle (LoadedEstimator Sample.broken))
               Sample.food_high_codes) ∧
  outcome (predict (load_bundle (LoadedEstimator Sample.broken))
             Sample.food_high_codes)
  = Raise (Uncaught ValueError).
Proof.
  assert (Hcall : ModelPredict Sample.food_high_row
            ∈ trace (predict (load_bundle (LoadedEstimator Sample.broken))
                       Sample.food_high_codes)) by (vm_compute; left).
  split; [exact Hcall |].
  exact (proj1 (model_failure_fails_server_side
                  (load_bundle (LoadedEstimator Sample.broken)) Sample.broken
                  Sample.food_high_codes Sample.food_high_row eq_refl Hcall)
           ValueError eq_refl).
Defined.

(** X12: a dict bundle with model, encoders for both fields and no
    "feature_order" serves every request whose labels the encoders know:
    the estimator is called once with the whole assembled row, in the
    default order of the nine columns and with the two codes in place of
    the labels, and the answer is its first prediction read as an int. *)
Theorem structured_bundle_serves_labelled_requests (d : gmap string pyobj)
    (m : Estimator) (es : gmap string Encoder) (enc_c enc_p : Encoder)
    (expense : ExpenseInput) (c p : string) (code_c code_p : Z) :
  d !! "model" = Some (PyEstimator m) →
  d !! "encoders" = Some (PyEncoders es) →
  d !! "feature_order" = None →
  es !! "category" = Some enc_c → es !! "priority_flag" = Some enc_p →
  category expense = Some c → priority_flag expense = Some p →
  code_for enc_c c = Ok code_c → code_for enc_p p = Ok code_p →
  predict (load_bundle (LoadedDict d)) expense
  = ([ModelPredict (assemble_row expense (code_c, code_p))],
     respond (first_as_int
                (est_predict m (assemble_row expense (code_c, code_p))))).
Proof.
  intros Hm Hes Hfo Hec Hep Hc Hp Hcc Hcp.
  apply (predict_with_labels (load_bundle (LoadedDict d)) m es enc_c enc_p
           DEFAULT_FEATURE_ORDER expense c p code_c code_p);
    try assumption; try reflexivity;
    unfold load_bundle, dict_get; simpl; rewrite ?Hm, ?Hes, ?Hfo; reflexivity.
Qed.

Lemma structured_bundle_serves_labelled_requests_witness :
  Sample.without_order !! "feature_order" = None ∧
  predict (load_bundle (LoadedDict Sample.without_order)) Sample.food_high
  = ([ModelPredict Sample.food_high_row], Ok {| recommend_flag := 1 |}).
Proof.
  split; [reflexivity |].
  exact (structured_bundle_serves_labelled_requests Sample.without_order
           Sample.cautious Sample.label_encoders Sample.category_encoder
           Sample.priority_encoder Sample.food_high "Food" "High" 2 1
           eq_refl eq_refl eq_refl eq_refl eq_refl eq_refl eq_refl
           eq_refl eq_refl).
Defined.

(** X13: the default feature order stands in for a missing key only.  A
    dict bundle whose "feature_order" entry is [None] keeps that [None];
    then no request is answered and the estimator is never called, and a
    request that gets through the encoding step ends in an uncaught
    exception of the column selection (status 500). *)
Theorem none_feature_order_is_not_defaulted (d : gmap string pyobj)
    (expense : ExpenseInput) :
  d !! "feature_order" = Some PyNone →
  feature_order (load_bundle (LoadedDict d)) = PyNone ∧
  trace (predict (load_bundle (LoadedDict d)) expense) = [] ∧
  (∀ resp, outcome (predict (load_bundle (LoadedDict d)) expense) ≠ Ok resp) ∧
  (∀ codes,
     outcome (resolve_encodings (load_bundle (LoadedDict d)) expense) = Ok codes →
     http_status (outcome (predict (load_bundle (LoadedDict d)) expense)) = 500).
Proof.
  intros Hd.
  assert (Hfo : feature_order (load_bundle (LoadedDict d)) = PyNone).
  { unfold load_bundle, dict_get; simpl. rewrite Hd. reflexivity. }
  split; [exact Hfo |]. split_and!.
  - destruct (predict_shape (load_bundle (LoadedDict d)) expense)
      as [[e ->] | (? & ? & ? & ? & _ & Hnames & _)];
      [reflexivity | congruence].
  - destruct (predict_shape (load_bundle (LoadedDict d)) expense)
      as [[e ->] | (? & ? & ? & ? & _ & Hnames & _)];
      [discriminate | congruence].
  - intros codes Hcodes.
    rewrite predict_unfold, Hcodes, infer_unfold, Hfo. reflexivity.
Qed.

Lemma none_feature_order_is_not_defaulted_witness :
  Sample.with_none_order !! "feature_order" = Some PyNone ∧
  outcome (resolve_encodings (load_bundle (LoadedDict Sample.with_none_order))
             Sample.food_high) = Ok (2, 1) ∧
  http_status (outcome (predict (load_bundle (LoadedDict Sample.with_none_order))
                          Sample.food_high)) = 500.
Proof.
  split; [reflexivity |]. split; [reflexivity |].
  exact (proj2 (proj2 (proj2 (none_feature_order_is_not_defaulted
                                Sample.with_none_order Sample.food_high
                                eq_refl))) (2, 1) eq_refl).
Defined.

(** *** The endpoint: validation in front of the handler *)

Lemma json_loads_absent (members : list (string * json)) (name : string) :
  name ∉ members.*1 → json_loads members !! name = None.
Proof.
  intros Hname. unfold json_loads. apply not_elem_of_list_to_map_1.
  rewrite fmap_reverse, elem_of_reverse. exact Hname.
Qed.

Lemma and_then_Ok {E A B} (r : result E A) (k : A → result E B) (b : B) :
  and_then r k = Ok b → ∃ a, r = Ok a ∧ k a = Ok b.
Proof. destruct r as [a | e]; simpl; [eauto | discriminate]. Qed.

Lemma required_Ok {A} (validator : json → option A) (d : gmap string json)
    (name : string) (a : A) :
  required validator d name = Ok a → is_Some (d !! name).
Proof. unfold required. destruct (d !! name); [eauto | discriminate]. Qed.

Lemma optional_absent {A} (validator : json → option A) (d : gmap string json)
    (name : string) :
  d !! name = None → optional validator d name = Ok None.
Proof. unfold optional. intros ->. reflexivity. Qed.

(** The only way validation fails is [RequestValidationError]. *)
Lemma and_then_raises {A B} (r : result exn A) (k : A → result exn B) :
  (∀ e, r = Raise e → e = RequestValidationError) →
  (∀ a e, k a = Raise e → e = RequestValidationError) →
  ∀ e, and_then r k = Raise e → e = RequestValidationError.
Proof. intros Hr Hk e. destruct r as [a | e']; simpl; [apply Hk | intros [= <-]; auto]. Qed.

Lemma required_raises {A} (validator : json → option A) (d : gmap string json)
    (name : string) (e : exn) :
  required validator d name = Raise e → e = RequestValidationError.
Proof. unfold required. repeat case_match; congruence. Qed.

Lemma optional_raises {A} (validator : json → option A) (d : gmap string json)
    (name : string) (e : exn) :
  optional validator d name = Raise e → e = RequestValidationError.
Proof. unfold optional. repeat case_match; congruence. Qed.

Lemma validate_raises {V : Validators} (d : gmap string json) (e : exn) :
  ExpenseInput_validate d = Raise e → e = RequestValidationError.
Proof.
  revert e. unfold ExpenseInput_validate.
  repeat (apply and_then_raises;
          [intros ?; first [apply required_raises | apply optional_raises]
          | intros ?]).
  discriminate.
Qed.

(** A record that validation returns took every field from the body. *)
Lemma validate_Ok {V : Validators} (d : gmap string json) (expense : ExpenseInput) :
  ExpenseInput_validate d = Ok expense →
  Forall (λ name, is_Some (d !! name)) required_fields ∧
  optional str_validator d "category" = Ok (category expense) ∧
  optional str_validator d "priority_flag" = Ok (priority_flag expense) ∧
  optional int_validator d "category_enc" = Ok (category_enc expense) ∧
  optional int_validator d "priority_enc" = Ok (priority_enc expense).
Proof.
  unfold ExpenseInput_validate. intros H.
  repeat (apply and_then_Ok in H as (? & ? & H)).
  injection H as <-. simpl.
  split; [| auto].
  unfold required_fields. repeat constructor; eapply required_Ok; eassumption.
Qed.

(** A categorical input without a member in the body is [None] in the
    record. *)
Lemma validate_absent {V : Validators} (d : gmap string json)
    (expense : ExpenseInput) :
  ExpenseInput_validate d = Ok expense →
  (d !! "category" = None → category expense = None) ∧
  (d !! "priority_flag" = None → priority_flag expense = None) ∧
  (d !! "category_enc" = None → category_enc expense = None) ∧
  (d !! "priority_enc" = None → priority_enc expense = None).
Proof.
  intros Hv. apply validate_Ok in Hv as (_ & Hc & Hp & Hce & Hpe).
  split_and!; intros Hno;
    rewrite (optional_absent _ _ _ Hno) in *; congruence.
Qed.

(** X14: a body that lacks one of the seven fields declared without a
    default (income_x, income_y, expense_amount, cutoff_rate,
    total_expenses, expense_ratio, risk_flag) is rejected by validation,
    with status 422, whatever the bundle; the handler is not reached and
    the estimator is never called. *)
Theorem body_without_required_field_rejected {V : Validators} (b : Bundle)
    (members : list (string * json)) (name : string) :
  name ∈ required_fields → name ∉ members.*1 →
  post_predict b members = raise RequestValidationError ∧
  http_status (outcome (post_predict b members)) = 422 ∧
  trace (post_predict b members) = [].
Proof.
  intros Hreq Habsent.
  assert (Hpost : post_predict b members = raise RequestValidationError).
  { unfold post_predict.
    destruct (ExpenseInput_validate (json_loads members)) as [expense | e] eqn:Hv.
    - apply validate_Ok in Hv as [Hall _].
      rewrite Forall_forall in Hall. apply Hall in Hreq.
      rewrite (json_loads_absent _ _ Habsent) in Hreq.
      destruct Hreq as [? Hnone]. discriminate Hnone.
    - apply validate_raises in Hv as ->. reflexivity. }
  rewrite Hpost. split_and!; reflexivity.
Qed.

Lemma body_without_required_field_rejected_witness :
  "income_x" ∈ required_fields ∧
  ("income_x" ∉ Sample.body_without_income.*1) ∧
  post_predict (V := plain_validators) Sample.with_encoders
    Sample.body_without_income
  = raise RequestValidationError.
Proof.
  assert (H1 : "income_x" ∈ required_fields) by left.
  assert (H2 : "income_x" ∉ Sample.body_without_income.*1)
    by (apply (bool_decide_unpack _); vm_compute; reflexivity).
  split; [exact H1 |]. split; [exact H2 |].
  exact (proj1 (body_without_required_field_rejected (V := plain_validators)
                  Sample.with_encoders Sample.body_without_income "income_x"
                  H1 H2)).
Defined.

(** X15: leaving out a categorical input is not a schema error.  A body
    that validates but has no member for a categorical input the active
    mode requires ([category] or [priority_flag] with encoders,
    [category_enc] or [priority_enc] without) passes validation and is
    answered by the handler itself, with status 400 and the text of the
    active mode, before the estimator is called. *)
Theorem omitted_categorical_member_answered_400 {V : Validators} (b : Bundle)
    (members : list (string * json)) (expense : ExpenseInput) :
  ExpenseInput_validate (json_loads members) = Ok expense →
  (encoders b ≠ PyNone ∧
     ("category" ∉ members.*1 ∨ "priority_flag" ∉ members.*1)) ∨
  (encoders b = PyNone ∧
     ("category_enc" ∉ members.*1 ∨ "priority_enc" ∉ members.*1)) →
  post_predict b members = raise (HTTPException 400 (missing_detail b)).
Proof.
  intros Hv Hmode. unfold post_predict. rewrite Hv.
  apply validate_absent in Hv as (Hc & Hp & Hce & Hpe).
  apply predict_stops_at_encoding, resolve_encodings_missing.
  unfold missing_fields, has_encoders, absent.
  destruct Hmode as [[Henc [Hno | Hno]] | [Henc [Hno | Hno]]];
    apply json_loads_absent in Hno;
    destruct (encoders b); try contradiction; try discriminate; simpl;
    rewrite ?(Hc Hno), ?(Hp Hno), ?(Hce Hno), ?(Hpe Hno);
    try discriminate; repeat case_match; discriminate.
Qed.

Lemma omitted_categorical_member_answered_400_witness :
  (∃ expense, ExpenseInput_validate (V := plain_validators)
                (json_loads Sample.body_without_category) = Ok expense) ∧
  ("category" ∉ Sample.body_without_category.*1) ∧
  post_predict (V := plain_validators) Sample.with_encoders
    Sample.body_without_category
  = raise (HTTPException 400 detail_strings).
Proof.
  assert (H2 : "category" ∉ Sample.body_without_category.*1)
    by (apply (bool_decide_unpack _); vm_compute; reflexivity).
  split; [eexists; vm_compute; reflexivity |]. split; [exact H2 |].
  eapply (omitted_categorical_member_answered_400 (V := plain_validators)
            Sample.with_encoders Sample.body_without_category).
  - vm_compute. reflexivity.
  - left. split; [discriminate | left; exact H2].
Defined.
